(** * verify_metrics.py: binary-classification metrics over label pairs

    A shallow embedding of [src/verify_metrics.py].  The script hands two
    label columns to scikit-learn; the library calls it makes are modelled
    in [Module sklearn] from the library's behaviour on string labels,
    including the [ValueError]s those calls raise.  Every ratio the library
    returns is one division of two small integers: the model keeps the exact
    ratio as a rational, and [to_double] gives the double nearest to it,
    which is the value the script holds. *)

From Stdlib Require Import QArith Lia Lqa SpecFloat.
From stdpp Require Import base list strings gmap.

Set Warnings "-clear-no-such-hyp".

Local Close Scope Q_scope.
Local Open Scope string_scope.
Local Open Scope nat_scope.

(** ** Values *)

(** A Python float: a number, here its exact value, or NaN. *)
Inductive float := Num (q : Q) | NaN.

(** [n / d] with scikit-learn's [zero_division=0] policy: the exact ratio,
    in lowest terms, of which the library returns the nearest double. *)
Definition prf_divide (n d : nat) : Q :=
  if decide (d = 0) then 0%Q else Qred (Z.of_nat n # Pos.of_nat d).

(** The rational [n], for stating formulas. *)
Definition Qn (n : nat) : Q := inject_Z (Z.of_nat n).

(** ** Doubles *)

(** IEEE 754 binary64 with round-to-nearest-even, as numpy and Python
    compute. *)
Definition double : Type := spec_float.

Definition double_of_Z (z : Z) : double := binary_normalize 53 1024 z 0 false.
Definition double_div : double → double → double := SFdiv 53 1024.
Definition double_mul : double → double → double := SFmul 53 1024.
Definition double_add : double → double → double := SFadd 53 1024.

(** The double the library returns for the ratio [q]: numerator and
    denominator are counts, exact as doubles, and their quotient is rounded
    once. *)
Definition to_double (q : Q) : double :=
  double_div (double_of_Z (Qnum q)) (double_of_Z (Zpos (Qden q))).

(** [2 * p * r / (p + r)] as Python evaluates it on two doubles. *)
Definition double_harmonic_mean (p r : double) : double :=
  double_div (double_mul (double_mul (double_of_Z 2) p) r) (double_add p r).

(** ** Errors as values *)

Inductive ValueError :=
| InconsistentLength      (* "Found input variables with inconsistent numbers of samples" *)
| EmptyInput              (* "Found empty input array ... a minimum of 1 is required" *)
| EmptyLabels             (* "'labels' should contains at least one label." *)
| NoLabelInYTrue          (* "At least one label specified must be in y_true" *)
| MulticlassTarget        (* "Target is multiclass but average='binary'" *)
| InvalidPosLabel.        (* "pos_label=... is not a valid label" *)

Definition result (A : Type) : Type := ValueError + A.

Definition raise {A} (e : ValueError) : result A := inl e.

#[export] Instance result_ret : MRet result := λ A x, inr x.
#[export] Instance result_bind : MBind result :=
  λ A B f m, match m with inl e => inl e | inr x => f x end.

(** ** The scikit-learn calls *)

Module sklearn.

(** Number of positions at which both columns satisfy [P]. *)
Definition count (P : string * string → Prop) `{∀ p, Decision (P p)}
    (y_true y_pred : list string) : nat :=
  length (filter P (zip y_true y_pred)).

(** [check_consistent_length] *)
Definition check_consistent_length (y_true y_pred : list string) : result () :=
  if decide (length y_true = length y_pred) then mret () else raise InconsistentLength.

(** [unique_labels(y_true, y_pred)]: the label values that occur. *)
Definition unique_labels (y_true y_pred : list string) : gset string :=
  list_to_set (y_true ++ y_pred).

(** The target type [_check_targets] assigns to string labels: binary up
    to two distinct values over both columns, multiclass beyond.  Columns
    without a row are rejected. *)
Inductive target_type := binary | multiclass.

Definition check_targets (y_true y_pred : list string) : result target_type :=
  _ ← check_consistent_length y_true y_pred;
  if decide (y_true = []) then raise EmptyInput
  else mret (if decide (size (unique_labels y_true y_pred) ≤ 2)
             then binary else multiclass).

(** [label_to_ind = {y: x for x, y in enumerate(labels)}]: a later
    occurrence of a label overwrites the index of an earlier one. *)
Definition label_to_ind (labels : list string) : gmap string nat :=
  foldl (λ m p, <[p.2 := p.1]> m) ∅ (imap (λ i y, (i, y)) labels).

(** [confusion_matrix(y_true, y_pred, labels=labels)], as rows. *)
Definition confusion_matrix (y_true y_pred labels : list string)
    : result (list (list nat)) :=
  _ ← check_targets y_true y_pred;
  let n_labels := length labels in
  if decide (n_labels = 0) then raise EmptyLabels
  else if decide (Forall (λ y, y ∉ labels) y_true) then raise NoLabelInYTrue
  else
    let ind := label_to_ind labels in
    mret ((λ i, (λ j,
             count (λ p, ind !! p.1 = Some i ∧ ind !! p.2 = Some j) y_true y_pred)
           <$> seq 0 n_labels) <$> seq 0 n_labels).

(** [cm.shape] and [cm[i][j]] *)
Definition shape (cm : list (list nat)) : nat * nat :=
  (length cm, from_option length 0 (head cm)).

Definition entry (cm : list (list nat)) (i j : nat) : nat :=
  default 0 (cm !! i ≫= (.!! j)).

(** [accuracy_score]: the fraction of positions where the two columns
    agree. *)
Definition accuracy_score (y_true y_pred : list string) : result float :=
  _ ← check_targets y_true y_pred;
  mret (Num (Qred (Z.of_nat (count (λ p, p.1 = p.2) y_true y_pred)
                   # Pos.of_nat (length y_true)))).

(** [_check_set_wise_labels] with [average='binary']. *)
Definition check_set_wise_labels (y_true y_pred : list string) (pos_label : string)
    : result () :=
  y_type ← check_targets y_true y_pred;
  match y_type with
  | binary =>
      let present_labels := unique_labels y_true y_pred in
      if decide ((pos_label ∉ present_labels) ∧ 2 ≤ size present_labels)
      then raise InvalidPosLabel else mret ()
  | multiclass => raise MulticlassTarget
  end.

(** The three sums [precision_recall_fscore_support] takes for the one
    label [pos_label]. *)
Definition tp_sum (y_true y_pred : list string) (pos_label : string) : nat :=
  count (λ p, p.1 = pos_label ∧ p.2 = pos_label) y_true y_pred.
Definition pred_sum (y_true y_pred : list string) (pos_label : string) : nat :=
  count (λ p, p.2 = pos_label) y_true y_pred.
Definition true_sum (y_true y_pred : list string) (pos_label : string) : nat :=
  count (λ p, p.1 = pos_label) y_true y_pred.

(** [precision_score(..., pos_label=..., zero_division=0)] *)
Definition precision_score (y_true y_pred : list string) (pos_label : string)
    : result Q :=
  _ ← check_set_wise_labels y_true y_pred pos_label;
  mret (prf_divide (tp_sum y_true y_pred pos_label) (pred_sum y_true y_pred pos_label)).

(** [recall_score(..., pos_label=..., zero_division=0)] *)
Definition recall_score (y_true y_pred : list string) (pos_label : string)
    : result Q :=
  _ ← check_set_wise_labels y_true y_pred pos_label;
  mret (prf_divide (tp_sum y_true y_pred pos_label) (true_sum y_true y_pred pos_label)).

(** [f1_score(..., pos_label=..., zero_division=0)]: with beta = 1 the
    library divides [2 * tp_sum] by [true_sum + pred_sum]. *)
Definition f1_score (y_true y_pred : list string) (pos_label : string)
    : result Q :=
  _ ← check_set_wise_labels y_true y_pred pos_label;
  mret (prf_divide (2 * tp_sum y_true y_pred pos_label)
          (true_sum y_true y_pred pos_label + pred_sum y_true y_pred pos_label)).

End sklearn.

(** ** calculate_metrics *)

Record ConfusionCounts := {
  true_positive : nat;
  true_negative : nat;
  false_positive : nat;
  false_negative : nat
}.

(** The four ratios are held exactly; the double the script holds for a
    ratio [q] is [to_double q]. *)
Record MetricsResult := {
  accuracy : float;
  precision : Q;
  recall : Q;
  f1_score : Q;
  confusion_matrix : ConfusionCounts;
  total_samples : nat;
  tp : nat;
  tn : nat;
  fp : nat;
  fn : nat
}.

Definition calculate_metrics (y_true y_pred : list string) (pos_label : string)
    : result MetricsResult :=
  cm ← sklearn.confusion_matrix y_true y_pred [pos_label; "No"];
  let tp := if decide (sklearn.shape cm = (2, 2)) then sklearn.entry cm 0 0 else 0 in
  let fn := if decide (sklearn.shape cm = (2, 2)) then sklearn.entry cm 0 1 else 0 in
  let fp := if decide (sklearn.shape cm = (2, 2)) then sklearn.entry cm 1 0 else 0 in
  let tn := if decide (sklearn.shape cm = (2, 2)) then sklearn.entry cm 1 1 else 0 in
  accuracy ← sklearn.accuracy_score y_true y_pred;
  precision ← sklearn.precision_score y_true y_pred pos_label;
  recall ← sklearn.recall_score y_true y_pred pos_label;
  f1 ← sklearn.f1_score y_true y_pred pos_label;
  mret {| accuracy := accuracy;
          precision := precision;
          recall := recall;
          f1_score := f1;
          confusion_matrix := {| true_positive := tp;
                                 true_negative := tn;
                                 false_positive := fp;
                                 false_negative := fn |};
          total_samples := length y_true;
          tp := tp; tn := tn; fp := fp; fn := fn |}.

(** The default [pos_label='Yes']. *)
Definition calculate_metrics_default (y_true y_pred : list string) : result MetricsResult :=
  calculate_metrics y_true y_pred "Yes".

(** ** The script's surroundings *)

(** A loaded table: its columns in file order, each with its cells. *)
Definition DataFrame : Type := list (string * list string).

Definition df_columns (df : DataFrame) : list string := df.*1.

Definition df_len (df : DataFrame) : nat :=
  from_option (λ c, length c.2) 0 (head df).

Definition df_get (df : DataFrame) (col : string) : list string :=
  default [] ((list_to_map df : gmap string (list string)) !! col).

(** What the script prints, one constructor per message. *)
Inductive output :=
| Usage
| Loading (csv_file : string)
| Loaded (n : nat)
| MissingColumns (missing available : list string)
| WarnInvalidActual (labels : gset string)
| WarnInvalidPredicted (labels : gset string)
| LabelDistribution (actual_yes actual_no predicted_yes predicted_no : nat)
| Calculating
| Results (metrics : MetricsResult)
| ClassificationReport
| Saved (output_file : string)
| Complete
| ErrorFileNotFound (csv_file : string)
| ErrorUnexpected.

Inductive exception :=
| FileNotFoundError
| Exception               (* any other subclass of Exception *)
| SystemExit (code : Z).  (* not a subclass of Exception *)

(** How a call into the operating system or a library can fail. *)
Inductive failure := file_not_found | other_failure.

Definition to_exception (f : failure) : exception :=
  match f with file_not_found => FileNotFoundError | other_failure => Exception end.

(** Outcomes the script does not decide: what [pd.read_csv] finds at a
    path, whether [classification_report] raises on two columns, and
    whether a path can be opened for writing ([None]: it can). *)
Record environment := {
  read_csv : string → failure + DataFrame;
  classification_report : list string → list string → option failure;
  open_w : string → option failure
}.

Record world := {
  stdout : list output;
  files : list (string * MetricsResult)
}.

(** Programs that print, write files and raise. *)
Definition IO (A : Type) : Type := world → (exception + A) * world.

#[export] Instance IO_ret : MRet IO := λ A x w, (inr x, w).
#[export] Instance IO_bind : MBind IO :=
  λ A B f m w, match m w with
               | (inl e, w') => (inl e, w')
               | (inr x, w') => f x w'
               end.

Definition print (o : output) : IO () :=
  λ w, (inr (), {| stdout := stdout w ++ [o]; files := files w |}).

Definition throw {A} (e : exception) : IO A := λ w, (inl e, w).

Definition sys_exit {A} (code : Z) : IO A := throw (SystemExit code).

Definition lift {A} (r : failure + A) : IO A :=
  match r with inl f => throw (to_exception f) | inr x => mret x end.

Definition check (r : option failure) : IO () :=
  match r with Some f => throw (to_exception f) | None => mret () end.

Definition json_dump (output_file : string) (metrics : MetricsResult) : IO () :=
  λ w, (inr (), {| stdout := stdout w; files := files w ++ [(output_file, metrics)] |}).

Definition when (b : bool) (m : IO ()) : IO () := if b then m else mret ().

(** [try: body except FileNotFoundError: h1 except Exception as e: h2] *)
Definition try_except (body : IO ()) (h1 h2 : IO ()) : IO () :=
  λ w, match body w with
       | (inl FileNotFoundError, w') => h1 w'
       | (inl Exception, w') => h2 w'
       | r => r
       end.

(** [s.replace(old, new)] for a non-empty [old]: every occurrence, left to
    right, without overlap.  [skip] counts the characters of a matched
    occurrence still to be dropped. *)
Fixpoint replace_from (skip : nat) (old new s : string) : string :=
  match s with
  | EmptyString => EmptyString
  | String c s' =>
      match skip with
      | S k => replace_from k old new s'
      | 0 => if String.prefix old s
             then new +:+ replace_from (String.length old - 1) old new s'
             else String c (replace_from 0 old new s')
      end
  end.

Definition str_replace (s old new : string) : string := replace_from 0 old new s.

(** ** print_results, verify_csv_format, main *)

Definition print_results (metrics : MetricsResult) : IO () :=
  print (Results metrics).

Definition verify_csv_format (df : DataFrame) : IO bool :=
  let required_columns := ["actual_label"; "predicted_label"] in
  let missing := filter (λ col, col ∉ df_columns df) required_columns in
  if bool_decide (missing ≠ []) then
    _ ← print (MissingColumns missing (df_columns df));
    mret false
  else mret true.

Definition value_count (y : list string) (label : string) : nat :=
  length (filter (λ x, x = label) y).

Definition main_try (env : environment) (csv_file : string) : IO () :=
  _ ← print (Loading csv_file);
  df ← lift (read_csv env csv_file);
  _ ← print (Loaded (df_len df));
  ok ← verify_csv_format df;
  if negb ok then sys_exit 1 else
  let y_true := df_get df "actual_label" in
  let y_pred := df_get df "predicted_label" in
  let valid_labels := ["Yes"; "No"] in
  let invalid_true := filter (λ label, label ∉ valid_labels) y_true in
  let invalid_pred := filter (λ label, label ∉ valid_labels) y_pred in
  _ ← when (bool_decide (invalid_true ≠ []))
         (print (WarnInvalidActual (list_to_set invalid_true)));
  _ ← when (bool_decide (invalid_pred ≠ []))
         (print (WarnInvalidPredicted (list_to_set invalid_pred)));
  _ ← print (LabelDistribution (value_count y_true "Yes") (value_count y_true "No")
                               (value_count y_pred "Yes") (value_count y_pred "No"));
  _ ← print Calculating;
  metrics ← match calculate_metrics y_true y_pred "Yes" with
            | inl _ => throw Exception        (* ValueError *)
            | inr m => mret m
            end;
  _ ← print_results metrics;
  _ ← check (classification_report env y_true y_pred);
  _ ← print ClassificationReport;
  let output_file := str_replace csv_file ".csv" "_python_metrics.json" in
  _ ← check (open_w env output_file);
  _ ← json_dump output_file metrics;
  _ ← print (Saved output_file);
  print Complete.

(** [sys.argv] includes the script name at index 0. *)
Definition main (env : environment) (argv : list string) : IO () :=
  match argv with
  | _ :: csv_file :: _ =>
      try_except (main_try env csv_file)
        (_ ← print (ErrorFileNotFound csv_file); sys_exit 1)
        (_ ← print ErrorUnexpected; sys_exit 1)
  | _ => _ ← print Usage; sys_exit 1
  end.

(** Running the script from a fresh process: the exit status and what was
    printed and written.  Falling off the end of [main] is status 0; an
    exception that escapes ends the interpreter with status 1. *)
Definition run (env : environment) (argv : list string) : Z * world :=
  match main env argv {| stdout := []; files := [] |} with
  | (inr (), w) => (0%Z, w)
  | (inl (SystemExit code), w) => (code, w)
  | (inl _, w) => (1%Z, w)
  end.

Definition exit_status (env : environment) (argv : list string) : Z := (run env argv).1.

(** ** The vocabulary of the specification *)

(** A label of the two-valued domain. *)
Definition valid_label (label : string) : Prop := label = "Yes" ∨ label = "No".

(** A pair whose actual and predicted labels are both in the domain. *)
Definition valid_pair (p : string * string) : Prop := valid_label p.1 ∧ valid_label p.2.

#[export] Instance valid_label_dec label : Decision (valid_label label).
Proof. unfold valid_label. apply _. Defined.

#[export] Instance valid_pair_dec p : Decision (valid_pair p).
Proof. unfold valid_pair. apply _. Defined.

(** The dataset the two columns stand for, and its number N of valid pairs. *)
Definition dataset (y_true y_pred : list string) : list (string * string) :=
  zip y_true y_pred.

Definition valid_pairs (y_true y_pred : list string) : nat :=
  sklearn.count valid_pair y_true y_pred.

(** A float that is the number [q]. *)
Definition is_number (x : float) (q : Q) : Prop :=
  match x with Num x => (x == q)%Q | NaN => False end.

(** The columns [verify_csv_format] reports as missing. *)
Definition missing_columns (df : DataFrame) : list string :=
  filter (λ col, col ∉ df_columns df) ["actual_label"; "predicted_label"].

(** A run in which nothing fails: a path is given, the file loads, both
    columns are present, the metrics are computed, the report is printed
    and the artifact is written. *)
Definition succeeds (env : environment) (argv : list string) : Prop :=
  ∃ prog csv_file rest df metrics,
    argv = prog :: csv_file :: rest ∧
    read_csv env csv_file = inr df ∧
    missing_columns df = [] ∧
    calculate_metrics (df_get df "actual_label") (df_get df "predicted_label") "Yes"
      = inr metrics ∧
    classification_report env (df_get df "actual_label") (df_get df "predicted_label")
      = None ∧
    open_w env (str_replace csv_file ".csv" "_python_metrics.json") = None.

(** An environment with one file, in which the report and every write
    succeed. *)
Definition one_file (path : string) (df : DataFrame) : environment :=
  {| read_csv := λ p, if decide (p = path) then inr df else inl file_not_found;
     classification_report := λ _ _, None;
     open_w := λ _, None |}.

(** An environment with one file, in which no path can be opened for
    writing because its directory does not exist. *)
Definition missing_directory (path : string) (df : DataFrame) : environment :=
  {| read_csv := λ p, if decide (p = path) then inr df else inl file_not_found;
     classification_report := λ _ _, None;
     open_w := λ _, Some file_not_found |}.

(** Unfolds a run down to the outcomes the environment decides. *)
Ltac run_main :=
  unfold exit_status, run, main, try_except, main_try, verify_csv_format, print_results,
    when, sys_exit, throw, print, json_dump, check, lift, to_exception,
    mbind, IO_bind, mret, IO_ret; simpl.

(** [old] occurs in [s] as a substring. *)
Definition occurs (old s : string) : Prop :=
  ∃ pre post, s = pre +:+ old +:+ post.


(** Settles whether a warning is among the messages written out. *)
Ltac warning_in_output :=
  split;
  [ let H := fresh in
    intros H;
    repeat (apply elem_of_cons in H as [H|H];
            [first [ discriminate H | injection H as -> ]|]);
    first [ by apply elem_of_nil in H | by split ]
  | intros [? ->]; first [ done | repeat first [ by left | right ] ] ].

(** * Properties *)

(** ** Counting *)

Section counting.
Context {A : Type}.
Implicit Types (P Q : A → Prop) (l : list A).

Lemma filter_length_ext P Q `{∀ x, Decision (P x)} `{∀ x, Decision (Q x)} l :
  (∀ x, x ∈ l → P x ↔ Q x) → length (filter P l) = length (filter Q l).
Proof.
  induction l as [|x l IH]; intros HPQ; [done|].
  rewrite !filter_cons.
  assert (length (filter P l) = length (filter Q l)) as IH'.
  { apply IH. intros y Hy. apply HPQ. by right. }
  pose proof (HPQ x ltac:(left)) as Hx.
  repeat case_decide; simpl; try tauto; by rewrite IH'.
Qed.

Lemma filter_length_or P Q `{∀ x, Decision (P x)} `{∀ x, Decision (Q x)} l :
  (∀ x, P x → Q x → False) →
  length (filter (λ x, P x ∨ Q x) l) = length (filter P l) + length (filter Q l).
Proof.
  intros Hdisj. induction l as [|x l IH]; [done|].
  rewrite !filter_cons.
  specialize (Hdisj x).
  repeat case_decide; simpl; try tauto; lia.
Qed.

Lemma filter_length_all P `{∀ x, Decision (P x)} l :
  length (filter P l) = length l ↔ Forall P l.
Proof.
  induction l as [|x l IH]; [by split|].
  rewrite filter_cons, Forall_cons.
  pose proof (length_filter P l).
  case_decide; simpl; [rewrite <- IH; split; [intros; split; [done|lia] | intros [_ ->]; done] |].
  split; [lia | tauto].
Qed.

Lemma filter_length_none P `{∀ x, Decision (P x)} l :
  (∀ x, ¬ P x) → length (filter P l) = 0.
Proof.
  intros HP. induction l as [|x l IH]; [done|].
  rewrite filter_cons. by rewrite decide_False.
Qed.

Lemma filter_length_mono P Q `{∀ x, Decision (P x)} `{∀ x, Decision (Q x)} l :
  (∀ x, P x → Q x) → length (filter P l) ≤ length (filter Q l).
Proof.
  intros HPQ. induction l as [|x l IH]; [done|].
  rewrite !filter_cons. specialize (HPQ x).
  repeat case_decide; simpl; try tauto; lia.
Qed.
End counting.

(** ** Rationals *)

Lemma prf_divide_0 n : prf_divide n 0 = 0%Q.
Proof. done. Qed.

Lemma prf_divide_Qeq n d : (prf_divide n d == Qn n / Qn d)%Q.
Proof.
  unfold prf_divide, Qn. case_decide as Hd.
  - subst d. simpl. unfold Qdiv. rewrite Qmult_comm. reflexivity.
  - rewrite Qred_correct, Qmake_Qdiv.
    replace (Z.pos (Pos.of_nat d)) with (Z.of_nat d); [reflexivity|].
    lia.
Qed.

(** ** What the library calls return *)

Lemma label_to_ind_pair pos x i :
  sklearn.label_to_ind [pos; "No"] !! x = Some i ↔
  (i = 1 ∧ x = "No") ∨ (i = 0 ∧ x = pos ∧ x ≠ "No").
Proof.
  change (sklearn.label_to_ind [pos; "No"])
    with (<["No" := 1]> (<[pos := 0]> (∅ : gmap string nat))).
  destruct (decide (x = "No")) as [->|Hno].
  - rewrite lookup_insert_eq. naive_solver.
  - rewrite lookup_insert_ne by done.
    destruct (decide (x = pos)) as [->|Hpos].
    + rewrite lookup_insert_eq. naive_solver.
    + rewrite lookup_insert_ne, lookup_empty by done. naive_solver.
Qed.

Lemma check_targets_inr y_true y_pred t :
  sklearn.check_targets y_true y_pred = inr t →
  length y_true = length y_pred ∧ y_true ≠ [] ∧
  t = if decide (size (sklearn.unique_labels y_true y_pred) ≤ 2)
      then sklearn.binary else sklearn.multiclass.
Proof.
  unfold sklearn.check_targets, sklearn.check_consistent_length.
  destruct (decide (length y_true = length y_pred)); simpl; [|done].
  destruct (decide (y_true = [])); [done|].
  by intros [= <-].
Qed.

Lemma check_set_wise_labels_inr y_true y_pred pos_label u :
  sklearn.check_set_wise_labels y_true y_pred pos_label = inr u →
  length y_true = length y_pred ∧ y_true ≠ [] ∧
  size (sklearn.unique_labels y_true y_pred) ≤ 2 ∧
  (pos_label ∈ sklearn.unique_labels y_true y_pred ∨
   size (sklearn.unique_labels y_true y_pred) < 2).
Proof.
  unfold sklearn.check_set_wise_labels.
  destruct (sklearn.check_targets y_true y_pred) as [e|t] eqn:Ht; simpl; [done|].
  apply check_targets_inr in Ht as (Hlen & Hne & ->).
  case_decide; [|done]. case_decide as Hpos; [done|]. intros _.
  split_and!; [done..|].
  destruct (decide (pos_label ∈ sklearn.unique_labels y_true y_pred)); [by left|].
  right. apply Nat.lt_nge. intros ?. by apply Hpos.
Qed.

Lemma confusion_matrix_inr y_true y_pred pos_label cm :
  sklearn.confusion_matrix y_true y_pred [pos_label; "No"] = inr cm →
  sklearn.shape cm = (2, 2) ∧
  ∀ i j, i < 2 → j < 2 →
    sklearn.entry cm i j =
    sklearn.count (λ p, sklearn.label_to_ind [pos_label; "No"] !! p.1 = Some i ∧
                        sklearn.label_to_ind [pos_label; "No"] !! p.2 = Some j)
      y_true y_pred.
Proof.
  unfold sklearn.confusion_matrix.
  destruct (sklearn.check_targets y_true y_pred) as [e|t]; simpl; [done|].
  case_decide; [done|]. intros [= <-]. split; [done|].
  intros i j Hi Hj.
  destruct i as [|[|i]], j as [|[|j]]; try lia; done.
Qed.

(** Every field of a returned result, in terms of the two columns. *)
Lemma calculate_metrics_inr y_true y_pred pos_label r :
  calculate_metrics y_true y_pred pos_label = inr r →
  (length y_true = length y_pred ∧ y_true ≠ []) ∧
  size (sklearn.unique_labels y_true y_pred) ≤ 2 ∧
  tp r = sklearn.count (λ p, (p.1 = pos_label ∧ p.2 = pos_label) ∧ pos_label ≠ "No")
           y_true y_pred ∧
  fn r = sklearn.count (λ p, (p.1 = pos_label ∧ p.2 = "No") ∧ pos_label ≠ "No")
           y_true y_pred ∧
  fp r = sklearn.count (λ p, (p.1 = "No" ∧ p.2 = pos_label) ∧ pos_label ≠ "No")
           y_true y_pred ∧
  tn r = sklearn.count (λ p, p.1 = "No" ∧ p.2 = "No") y_true y_pred ∧
  confusion_matrix r = {| true_positive := tp r; true_negative := tn r;
                          false_positive := fp r; false_negative := fn r |} ∧
  total_samples r = length y_true ∧
  accuracy r = Num (Qred (Z.of_nat (sklearn.count (λ p, p.1 = p.2) y_true y_pred)
                          # Pos.of_nat (length y_true))) ∧
  precision r = prf_divide (sklearn.tp_sum y_true y_pred pos_label)
                  (sklearn.pred_sum y_true y_pred pos_label) ∧
  recall r = prf_divide (sklearn.tp_sum y_true y_pred pos_label)
               (sklearn.true_sum y_true y_pred pos_label) ∧
  f1_score r = prf_divide (2 * sklearn.tp_sum y_true y_pred pos_label)
                 (sklearn.true_sum y_true y_pred pos_label +
                  sklearn.pred_sum y_true y_pred pos_label).
Proof.
  unfold calculate_metrics.
  destruct (sklearn.confusion_matrix _ _ _) as [e|cm] eqn:Hcm; simpl; [done|].
  apply confusion_matrix_inr in Hcm as [Hshape Hentry].
  rewrite !decide_True by done.
  unfold sklearn.accuracy_score, sklearn.precision_score, sklearn.recall_score,
    sklearn.f1_score.
  destruct (sklearn.check_set_wise_labels _ _ _) as [e|[]] eqn:Hset;
    [by destruct (sklearn.check_targets _ _)|].
  apply check_set_wise_labels_inr in Hset as (Hlen & Hne & Hsize & _).
  destruct (sklearn.check_targets _ _) as [e|t]; simpl; [done|].
  intros [= <-]; simpl.
  rewrite !Hentry by lia.
  split_and!; try done; unfold sklearn.count; apply filter_length_ext;
    intros [a p] _; simpl; rewrite !label_to_ind_pair; naive_solver.
Qed.

(** ** The confusion counts *)

Lemma confusion_counts_sum y_true y_pred pos_label r :
  calculate_metrics y_true y_pred pos_label = inr r →
  pos_label ≠ "No" →
  tp r + tn r + fp r + fn r =
  sklearn.count (λ p, (p.1 = pos_label ∨ p.1 = "No") ∧ (p.2 = pos_label ∨ p.2 = "No"))
    y_true y_pred.
Proof.
  intros Hr Hpos.
  apply calculate_metrics_inr in Hr as (_ & _ & -> & -> & -> & -> & _).
  unfold sklearn.count.
  do 3 (rewrite <- filter_length_or by (intros [a p]; simpl; naive_solver)).
  apply filter_length_ext. intros [a p] _. simpl. naive_solver.
Qed.

(** C3: for a returned result, tp + tn + fp + fn is at most total_samples,
    the two are equal exactly when every pair of the dataset has both
    labels in {"Yes", "No"}, and total_samples is the raw number of pairs. *)
Theorem confusion_counts_le_total_samples y_true y_pred r :
  calculate_metrics y_true y_pred "Yes" = inr r →
  tp r + tn r + fp r + fn r ≤ total_samples r ∧
  (tp r + tn r + fp r + fn r = total_samples r ↔
   Forall valid_pair (dataset y_true y_pred)) ∧
  total_samples r = length (dataset y_true y_pred) ∧
  total_samples r = length y_true.
Proof.
  intros Hr.
  pose proof (confusion_counts_sum _ _ _ _ Hr ltac:(done)) as ->.
  apply calculate_metrics_inr in Hr as (Hlen & _ & _ & _ & _ & _ & _ & -> & _).
  assert (length (dataset y_true y_pred) = length y_true) as Hzip.
  { unfold dataset. rewrite length_zip_with. lia. }
  unfold sklearn.count. fold (dataset y_true y_pred). rewrite <- Hzip.
  split_and!; [apply length_filter | | done | done].
  rewrite filter_length_all. done.
Qed.

Lemma confusion_counts_le_total_samples_witness :
  ∃ r, calculate_metrics ["Yes"; "Maybe"] ["Yes"; "Yes"] "Yes" = inr r ∧
       tp r + tn r + fp r + fn r ≤ total_samples r ∧
       (tp r + tn r + fp r + fn r = total_samples r ↔
        Forall valid_pair (dataset ["Yes"; "Maybe"] ["Yes"; "Yes"])) ∧
       total_samples r = length (dataset ["Yes"; "Maybe"] ["Yes"; "Yes"]) ∧
       total_samples r = length ["Yes"; "Maybe"].
Proof.
  eexists. split; [vm_compute; reflexivity|].
  apply (confusion_counts_le_total_samples ["Yes"; "Maybe"] ["Yes"; "Yes"]).
  vm_compute. reflexivity.
Defined.

Lemma counts_over_pos_label_and_No y_true y_pred pos_label r :
  calculate_metrics y_true y_pred pos_label = inr r →
  pos_label ≠ "No" →
  tp r = sklearn.count (λ p, p.1 = pos_label ∧ p.2 = pos_label) y_true y_pred ∧
  fn r = sklearn.count (λ p, p.1 = pos_label ∧ p.2 = "No") y_true y_pred ∧
  fp r = sklearn.count (λ p, p.1 = "No" ∧ p.2 = pos_label) y_true y_pred ∧
  tn r = sklearn.count (λ p, p.1 = "No" ∧ p.2 = "No") y_true y_pred.
Proof.
  intros Hr Hpos.
  apply calculate_metrics_inr in Hr as (_ & _ & Htp & Hfn & Hfp & Htn & _).
  split_and!; [| | |done].
  - rewrite Htp. apply filter_length_ext. intros [a p] _; simpl. naive_solver.
  - rewrite Hfn. apply filter_length_ext. intros [a p] _; simpl. naive_solver.
  - rewrite Hfp. apply filter_length_ext. intros [a p] _; simpl. naive_solver.
Qed.

(** C10, as amended: the negative class is the fixed string "No" whatever
    [pos_label] is; for every [pos_label] other than "No" the four counts
    of a returned result are taken over the label set {pos_label, "No"},
    and pairs with a label outside that set contribute to no count. *)
Theorem negative_class_fixed y_true y_pred pos_label r :
  pos_label ≠ "No" →
  calculate_metrics y_true y_pred pos_label = inr r →
  tp r = sklearn.count (λ p, p.1 = pos_label ∧ p.2 = pos_label) y_true y_pred ∧
  fn r = sklearn.count (λ p, p.1 = pos_label ∧ p.2 = "No") y_true y_pred ∧
  fp r = sklearn.count (λ p, p.1 = "No" ∧ p.2 = pos_label) y_true y_pred ∧
  tn r = sklearn.count (λ p, p.1 = "No" ∧ p.2 = "No") y_true y_pred ∧
  tp r + tn r + fp r + fn r =
    sklearn.count (λ p, (p.1 = pos_label ∨ p.1 = "No") ∧ (p.2 = pos_label ∨ p.2 = "No"))
      y_true y_pred.
Proof.
  intros Hpos Hr.
  pose proof (confusion_counts_sum _ _ _ _ Hr Hpos) as Hsum.
  pose proof (counts_over_pos_label_and_No _ _ _ _ Hr Hpos) as (? & ? & ? & ?).
  by split_and!.
Qed.

Lemma negative_class_fixed_witness :
  ∃ r, calculate_metrics ["Lock"; "Lock"; "No"; "No"] ["Lock"; "No"; "Lock"; "Lock"] "Lock"
       = inr r ∧ tp r = 1 ∧ fn r = 1 ∧ fp r = 2 ∧ tn r = 0.
Proof.
  eexists. split; [vm_compute; reflexivity|].
  pose proof (negative_class_fixed
                ["Lock"; "Lock"; "No"; "No"] ["Lock"; "No"; "Lock"; "Lock"] "Lock"
                _ ltac:(done) eq_refl) as H.
  vm_compute in H. vm_compute. tauto.
Defined.

(** With [pos_label = "No"] the label list is ["No"; "No"]; both entries
    share index 1, so only tn is ever counted. *)
Lemma negative_class_as_pos_label y_true y_pred r :
  calculate_metrics y_true y_pred "No" = inr r →
  tp r = 0 ∧ fn r = 0 ∧ fp r = 0 ∧
  tn r = sklearn.count (λ p, p.1 = "No" ∧ p.2 = "No") y_true y_pred.
Proof.
  intros Hr.
  apply calculate_metrics_inr in Hr as (_ & _ & Htp & Hfn & Hfp & Htn & _).
  split_and!; [| | |done].
  - rewrite Htp. apply filter_length_none. naive_solver.
  - rewrite Hfn. apply filter_length_none. naive_solver.
  - rewrite Hfp. apply filter_length_none. naive_solver.
Qed.

(** C10 fails as stated at [pos_label = "No"]: the one pair ("No", "No")
    is a (pos_label, pos_label) pair, and tp is 0. *)
Lemma negative_class_fixed_fails_at_No :
  ¬ (∀ y_true y_pred pos_label r,
       calculate_metrics y_true y_pred pos_label = inr r →
       tp r = sklearn.count (λ p, p.1 = pos_label ∧ p.2 = pos_label) y_true y_pred).
Proof.
  intros H.
  specialize (H ["No"] ["No"] "No" _ eq_refl).
  vm_compute in H. discriminate H.
Qed.

(** ** The concrete scenario *)

(** C6: on [(Yes,Yes), (Yes,No), (No,Yes), (No,No), (No,No)] the result has
    tp=1, fn=1, fp=1, tn=2, total_samples=5, accuracy=0.6, precision=0.5,
    recall=0.5, f1_score=0.5. *)
Theorem calculate_metrics_scenario :
  ∃ r a,
    calculate_metrics ["Yes"; "Yes"; "No"; "No"; "No"] ["Yes"; "No"; "Yes"; "No"; "No"] "Yes"
      = inr r ∧
    tp r = 1 ∧ fn r = 1 ∧ fp r = 1 ∧ tn r = 2 ∧ total_samples r = 5 ∧
    confusion_matrix r = {| true_positive := 1; true_negative := 2;
                            false_positive := 1; false_negative := 1 |} ∧
    accuracy r = Num a ∧ (a == 0.6)%Q ∧
    (precision r == 0.5)%Q ∧ (recall r == 0.5)%Q ∧ (f1_score r == 0.5)%Q.
Proof.
  eexists _, _. split; [vm_compute; reflexivity|]. simpl.
  split_and!; done.
Qed.

(** ** The four ratios *)

Lemma tp_is_tp_sum y_true y_pred pos_label r :
  calculate_metrics y_true y_pred pos_label = inr r →
  pos_label ≠ "No" →
  tp r = sklearn.tp_sum y_true y_pred pos_label.
Proof.
  intros Hr Hpos. by apply counts_over_pos_label_and_No in Hr as (? & _).
Qed.

(** On a dataset of valid pairs the library's sums are the confusion
    counts' sums, and agreeing pairs are the (Yes,Yes) and (No,No) ones. *)
Lemma valid_dataset_sums y_true y_pred r :
  calculate_metrics y_true y_pred "Yes" = inr r →
  Forall valid_pair (dataset y_true y_pred) →
  sklearn.pred_sum y_true y_pred "Yes" = tp r + fp r ∧
  sklearn.true_sum y_true y_pred "Yes" = tp r + fn r ∧
  sklearn.count (λ p, p.1 = p.2) y_true y_pred = tp r + tn r ∧
  valid_pairs y_true y_pred = length y_true.
Proof.
  intros Hr Hvalid.
  pose proof (counts_over_pos_label_and_No _ _ _ _ Hr ltac:(done)) as (-> & -> & -> & ->).
  apply calculate_metrics_inr in Hr as (Hlen & _).
  rewrite Forall_forall in Hvalid.
  unfold sklearn.pred_sum, sklearn.true_sum, valid_pairs, sklearn.count.
  fold (dataset y_true y_pred).
  split_and!.
  - rewrite <- filter_length_or by (intros [a p]; simpl; naive_solver).
    apply filter_length_ext. intros [a p] Hin. specialize (Hvalid _ Hin).
    unfold valid_pair, valid_label in Hvalid. simpl in *. naive_solver.
  - rewrite <- filter_length_or by (intros [a p]; simpl; naive_solver).
    apply filter_length_ext. intros [a p] Hin. specialize (Hvalid _ Hin).
    unfold valid_pair, valid_label in Hvalid. simpl in *. naive_solver.
  - rewrite <- filter_length_or by (intros [a p]; simpl; naive_solver).
    apply filter_length_ext. intros [a p] Hin. specialize (Hvalid _ Hin).
    unfold valid_pair, valid_label in Hvalid. simpl in *. naive_solver.
  - transitivity (length (dataset y_true y_pred)).
    + apply filter_length_all, Forall_forall, Hvalid.
    + unfold dataset. rewrite length_zip_with. lia.
Qed.

(** C1, as amended: a returned accuracy is the number of pairs whose actual
    and predicted labels are equal over total_samples, with every pair of
    the dataset in both numbers; this is (tp + tn) / N when every pair has
    both labels in {"Yes", "No"}. *)
Theorem accuracy_over_all_pairs y_true y_pred r :
  calculate_metrics y_true y_pred "Yes" = inr r →
  is_number (accuracy r)
    (Qn (sklearn.count (λ p, p.1 = p.2) y_true y_pred) / Qn (total_samples r)) ∧
  (Forall valid_pair (dataset y_true y_pred) →
   valid_pairs y_true y_pred = total_samples r ∧
   is_number (accuracy r) (Qn (tp r + tn r) / Qn (valid_pairs y_true y_pred))).
Proof.
  intros Hr.
  assert (is_number (accuracy r)
            (Qn (sklearn.count (λ p, p.1 = p.2) y_true y_pred) / Qn (total_samples r)))
    as Hacc.
  { apply calculate_metrics_inr in Hr as ([_ Hne] & _ & _ & _ & _ & _ & _ & -> & -> & _).
    simpl.
    pose proof (prf_divide_Qeq (sklearn.count (λ p, p.1 = p.2) y_true y_pred)
                  (length y_true)) as Hdiv.
    unfold prf_divide in Hdiv. rewrite decide_False in Hdiv; [done|].
    by destruct y_true. }
  split; [done|].
  intros Hvalid.
  pose proof (valid_dataset_sums _ _ _ Hr Hvalid) as (_ & _ & Heq & HN).
  apply calculate_metrics_inr in Hr as (_ & _ & _ & _ & _ & _ & _ & Htot & _).
  rewrite Heq, Htot in Hacc. by rewrite HN, Htot.
Qed.

Lemma accuracy_over_all_pairs_witness :
  ∃ r, calculate_metrics ["Yes"; "No"; "No"] ["Yes"; "Yes"; "No"] "Yes" = inr r ∧
       is_number (accuracy r) (Qn 2 / Qn 3) ∧
       valid_pairs ["Yes"; "No"; "No"] ["Yes"; "Yes"; "No"] = total_samples r ∧
       is_number (accuracy r)
         (Qn (tp r + tn r) / Qn (valid_pairs ["Yes"; "No"; "No"] ["Yes"; "Yes"; "No"])).
Proof.
  eexists. split; [vm_compute; reflexivity|].
  destruct (accuracy_over_all_pairs ["Yes"; "No"; "No"] ["Yes"; "Yes"; "No"] _ eq_refl)
    as (H1 & H2).
  split; [apply H1|].
  apply H2.
  apply (bool_decide_unpack _). vm_compute. exact I.
Defined.

(** With no valid pair at all the accuracy need not be 0: on
    [(Yes,Maybe), (Maybe,Maybe)] it is 1/2. *)
Example accuracy_without_valid_pair :
  ∃ r, calculate_metrics ["Yes"; "Maybe"] ["Maybe"; "Maybe"] "Yes" = inr r ∧
       valid_pairs ["Yes"; "Maybe"] ["Maybe"; "Maybe"] = 0 ∧
       accuracy r = Num (1 # 2).
Proof. eexists. split; [vm_compute; reflexivity|]. split; reflexivity. Qed.

(** C1 fails as stated on [(Yes,Yes), (Maybe,Yes)]: one pair is valid and
    it is a true positive, so (tp + tn) / N is 1; the accuracy is 1/2. *)
Lemma accuracy_over_valid_pairs_fails :
  ¬ (∀ y_true y_pred r,
       calculate_metrics y_true y_pred "Yes" = inr r →
       is_number (accuracy r)
         (if decide (valid_pairs y_true y_pred = 0) then 0%Q
          else (Qn (tp r + tn r) / Qn (valid_pairs y_true y_pred))%Q)).
Proof.
  intros H.
  specialize (H ["Yes"; "Maybe"] ["Yes"; "Yes"] _ eq_refl).
  vm_compute in H. discriminate H.
Qed.

(** C4, as amended: a returned precision is tp over the number of pairs
    predicted "Yes" and a returned recall is tp over the number of pairs
    whose actual label is "Yes", each 0.0 when its denominator is 0; these
    are tp / (tp + fp) and tp / (tp + fn) when every pair has both labels in
    {"Yes", "No"}. *)
Theorem precision_recall_over_all_pairs y_true y_pred r :
  calculate_metrics y_true y_pred "Yes" = inr r →
  ((precision r == Qn (tp r) / Qn (sklearn.count (λ p, p.2 = "Yes") y_true y_pred))%Q ∧
   (sklearn.count (λ p, p.2 = "Yes") y_true y_pred = 0 → precision r = 0%Q) ∧
   (recall r == Qn (tp r) / Qn (sklearn.count (λ p, p.1 = "Yes") y_true y_pred))%Q ∧
   (sklearn.count (λ p, p.1 = "Yes") y_true y_pred = 0 → recall r = 0%Q)) ∧
  (Forall valid_pair (dataset y_true y_pred) →
   (precision r == Qn (tp r) / Qn (tp r + fp r))%Q ∧
   (tp r + fp r = 0 → precision r = 0%Q) ∧
   (recall r == Qn (tp r) / Qn (tp r + fn r))%Q ∧
   (tp r + fn r = 0 → recall r = 0%Q)).
Proof.
  intros Hr.
  pose proof (tp_is_tp_sum _ _ _ _ Hr ltac:(done)) as Htp.
  pose proof (calculate_metrics_inr _ _ _ _ Hr)
    as (_ & _ & _ & _ & _ & _ & _ & _ & _ & HP & HR & _).
  fold (sklearn.pred_sum y_true y_pred "Yes") (sklearn.true_sum y_true y_pred "Yes").
  assert ((precision r == Qn (tp r) / Qn (sklearn.pred_sum y_true y_pred "Yes"))%Q ∧
          (sklearn.pred_sum y_true y_pred "Yes" = 0 → precision r = 0%Q) ∧
          (recall r == Qn (tp r) / Qn (sklearn.true_sum y_true y_pred "Yes"))%Q ∧
          (sklearn.true_sum y_true y_pred "Yes" = 0 → recall r = 0%Q)) as Hall.
  { rewrite HP, HR, Htp. split_and!.
    - apply prf_divide_Qeq.
    - intros ->. apply prf_divide_0.
    - apply prf_divide_Qeq.
    - intros ->. apply prf_divide_0. }
  split; [done|].
  intros Hvalid.
  pose proof (valid_dataset_sums _ _ _ Hr Hvalid) as (Hps & Hts & _).
  by rewrite Hps, Hts in Hall.
Qed.

Lemma precision_recall_over_all_pairs_witness :
  ∃ r, calculate_metrics ["Yes"; "No"; "No"] ["Yes"; "Yes"; "No"] "Yes" = inr r ∧
       (precision r == Qn (tp r) / Qn (tp r + fp r))%Q ∧
       (recall r == Qn (tp r) / Qn (tp r + fn r))%Q.
Proof.
  eexists. split; [vm_compute; reflexivity|].
  destruct (precision_recall_over_all_pairs ["Yes"; "No"; "No"] ["Yes"; "Yes"; "No"]
              _ eq_refl) as (_ & H).
  destruct H as (HP & _ & HR & _); [|by split].
  apply (bool_decide_unpack _). vm_compute. exact I.
Defined.

(** C4 fails as stated on [(Yes,Yes), (Maybe,Yes)]: tp = 1 and fp = 0, so
    tp / (tp + fp) is 1; the precision is 1/2. *)
Lemma precision_over_valid_pairs_fails :
  ¬ (∀ y_true y_pred r,
       calculate_metrics y_true y_pred "Yes" = inr r →
       (precision r == Qn (tp r) / Qn (tp r + fp r))%Q ∧
       (recall r == Qn (tp r) / Qn (tp r + fn r))%Q).
Proof.
  intros H.
  destruct (H ["Yes"; "Maybe"] ["Yes"; "Yes"] _ eq_refl) as [HP _].
  vm_compute in HP. discriminate HP.
Qed.

Lemma Qn_pos n : 0 < n → (0 < Qn n)%Q.
Proof.
  intros Hn. unfold Qn. change 0%Q with (inject_Z 0). rewrite <- Zlt_Qlt. lia.
Qed.

Lemma Qn_add a b : (Qn (a + b) == Qn a + Qn b)%Q.
Proof. unfold Qn. by rewrite Nat2Z.inj_add, inject_Z_plus. Qed.

Lemma Qn_mul a b : (Qn (a * b) == Qn a * Qn b)%Q.
Proof. unfold Qn. by rewrite Nat2Z.inj_mul, inject_Z_mult. Qed.

(** The library's F1, [2 tp / (true_sum + pred_sum)], is the harmonic mean
    of the precision and recall taken from the same three sums. *)
Lemma harmonic_mean t ps ts :
  t ≤ ps → t ≤ ts →
  (prf_divide (2 * t) (ts + ps) ==
   2 * prf_divide t ps * prf_divide t ts / (prf_divide t ps + prf_divide t ts))%Q.
Proof.
  intros Hps Hts.
  rewrite !prf_divide_Qeq, Qn_add, Qn_mul.
  change (Qn 2) with 2%Q.
  destruct (decide (t = 0)) as [->|Ht].
  - change (Qn 0) with 0%Q. unfold Qdiv.
    repeat (rewrite Qmult_0_l || rewrite Qmult_0_r). reflexivity.
  - pose proof (Qn_pos t ltac:(lia)). pose proof (Qn_pos ps ltac:(lia)).
    pose proof (Qn_pos ts ltac:(lia)).
    generalize dependent (Qn t). generalize dependent (Qn ps). generalize dependent (Qn ts).
    intros c Hc b Hb a Ha.
    field. split_and!; try lra.
    intros Habs. assert (0 < a * c + a * b)%Q; [|lra].
    pose proof (Qmult_lt_0_compat _ _ Ha Hc). pose proof (Qmult_lt_0_compat _ _ Ha Hb). lra.
Qed.

Lemma prf_divide_pos n d : 0 < n → 0 < d → (0 < prf_divide n d)%Q.
Proof.
  intros Hn Hd. unfold prf_divide. rewrite decide_False by lia.
  rewrite Qred_correct. unfold Qlt. simpl. lia.
Qed.

Lemma prf_divide_nonneg n d : (0 <= prf_divide n d)%Q.
Proof.
  unfold prf_divide. case_decide; [done|].
  rewrite Qred_correct. unfold Qle. simpl. lia.
Qed.

Lemma prf_divide_0_l d : prf_divide 0 d = 0%Q.
Proof. unfold prf_divide. by case_decide. Qed.

(** C5, as amended: a returned f1_score is the ratio
    2 tp / (true_sum + pred_sum), 0.0 when that denominator is 0, rounded
    once, where precision is tp / pred_sum and recall is tp / true_sum; as
    exact ratios, before rounding, f1_score is
    2 * precision * recall / (precision + recall), and f1_score is 0.0 when
    precision + recall = 0. *)
Theorem f1_is_harmonic_mean y_true y_pred pos_label r :
  calculate_metrics y_true y_pred pos_label = inr r →
  (f1_score r == Qn (2 * sklearn.tp_sum y_true y_pred pos_label) /
                 Qn (sklearn.true_sum y_true y_pred pos_label +
                     sklearn.pred_sum y_true y_pred pos_label))%Q ∧
  (f1_score r == 2 * precision r * recall r / (precision r + recall r))%Q ∧
  ((precision r + recall r == 0)%Q →
   f1_score r = 0%Q ∧ to_double (f1_score r) = S754_zero false).
Proof.
  intros Hr.
  apply calculate_metrics_inr in Hr
    as (_ & _ & _ & _ & _ & _ & _ & _ & _ & -> & -> & ->).
  assert (sklearn.tp_sum y_true y_pred pos_label ≤ sklearn.pred_sum y_true y_pred pos_label)
    as Hps by (apply filter_length_mono; intros ?; simpl; tauto).
  assert (sklearn.tp_sum y_true y_pred pos_label ≤ sklearn.true_sum y_true y_pred pos_label)
    as Hts by (apply filter_length_mono; intros ?; simpl; tauto).
  split_and!.
  - apply prf_divide_Qeq.
  - by apply harmonic_mean.
  - intros Hzero.
    assert (sklearn.tp_sum y_true y_pred pos_label = 0) as ->.
    { destruct (decide (sklearn.tp_sum y_true y_pred pos_label = 0)) as [|Hne]; [done|].
      pose proof (prf_divide_pos (sklearn.tp_sum y_true y_pred pos_label)
                    (sklearn.pred_sum y_true y_pred pos_label) ltac:(lia) ltac:(lia)).
      pose proof (prf_divide_nonneg (sklearn.tp_sum y_true y_pred pos_label)
                    (sklearn.true_sum y_true y_pred pos_label)).
      lra. }
    by rewrite Nat.mul_0_r, prf_divide_0_l.
Qed.

Lemma f1_is_harmonic_mean_witness :
  ∃ r, calculate_metrics ["Yes"; "Yes"; "No"] ["Yes"; "No"; "No"] "Yes" = inr r ∧
       (f1_score r == 2 * precision r * recall r / (precision r + recall r))%Q.
Proof.
  eexists. split; [vm_compute; reflexivity|].
  apply (f1_is_harmonic_mean ["Yes"; "Yes"; "No"] ["Yes"; "No"; "No"] "Yes").
  vm_compute. reflexivity.
Defined.

(** C5 fails as stated on five actual "Yes" of which four are predicted
    "Yes": the returned precision is 1.0, the returned recall the double
    nearest to 4/5 and the returned f1_score the double nearest to 8/9;
    2 * precision * recall / (precision + recall) computed from the
    returned precision and recall is the next double above it. *)
Lemma f1_of_returned_doubles_fails :
  ¬ (∀ y_true y_pred r,
       calculate_metrics y_true y_pred "Yes" = inr r →
       SFeqb (to_double (f1_score r))
             (double_harmonic_mean (to_double (precision r)) (to_double (recall r)))
       = true).
Proof.
  intros H.
  specialize (H ["Yes"; "Yes"; "Yes"; "Yes"; "Yes"] ["Yes"; "Yes"; "Yes"; "Yes"; "No"]
                _ eq_refl).
  vm_compute in H. discriminate H.
Qed.

Example f1_of_returned_doubles_values :
  ∃ r, calculate_metrics ["Yes"; "Yes"; "Yes"; "Yes"; "Yes"]
                         ["Yes"; "Yes"; "Yes"; "Yes"; "No"] "Yes" = inr r ∧
       to_double (f1_score r) = S754_finite false 8006399337547548 (-53) ∧
       double_harmonic_mean (to_double (precision r)) (to_double (recall r)) =
         S754_finite false 8006399337547549 (-53).
Proof. eexists. split; [vm_compute; reflexivity|]. split; vm_compute; reflexivity. Qed.

(** ** Order of the pairs *)

Section permutation.
Context (ds ds' : list (string * string)) (Hperm : ds ≡ₚ ds').

Lemma count_permutation (P : string * string → Prop) `{∀ p, Decision (P p)} :
  sklearn.count P ds.*1 ds.*2 = sklearn.count P ds'.*1 ds'.*2.
Proof using Hperm.
  unfold sklearn.count. rewrite !zip_fst_snd. by rewrite Hperm.
Qed.

Lemma actual_nil_permutation : ds.*1 = [] ↔ ds'.*1 = [].
Proof using Hperm.
  split; intros H%fmap_nil_inv; subst.
  - by apply Permutation_nil_l in Hperm as <-.
  - by apply Permutation_nil_r in Hperm as ->.
Qed.

Lemma unique_labels_permutation :
  sklearn.unique_labels ds.*1 ds.*2 = sklearn.unique_labels ds'.*1 ds'.*2.
Proof using Hperm.
  unfold sklearn.unique_labels. apply list_to_set_perm_L. by rewrite Hperm.
Qed.

Lemma check_targets_permutation :
  sklearn.check_targets ds.*1 ds.*2 = sklearn.check_targets ds'.*1 ds'.*2.
Proof using Hperm.
  unfold sklearn.check_targets, sklearn.check_consistent_length.
  rewrite unique_labels_permutation.
  destruct (decide (length ds.*1 = length ds.*2)) as [_|Hne];
    [|by rewrite !length_fmap in Hne].
  destruct (decide (length ds'.*1 = length ds'.*2)) as [_|Hne];
    [|by rewrite !length_fmap in Hne].
  simpl.
  by rewrite (decide_ext (ds.*1 = []) (ds'.*1 = [])) by apply actual_nil_permutation.
Qed.

Lemma confusion_matrix_permutation labels :
  sklearn.confusion_matrix ds.*1 ds.*2 labels =
  sklearn.confusion_matrix ds'.*1 ds'.*2 labels.
Proof using Hperm.
  unfold sklearn.confusion_matrix. rewrite check_targets_permutation.
  destruct (sklearn.check_targets _ _) as [e|t]; simpl; [done|].
  case_decide; [done|].
  rewrite (decide_ext (Forall _ ds.*1) (Forall (λ y, y ∉ labels) ds'.*1))
    by (by rewrite Hperm).
  case_decide; [done|].
  f_equal. apply list_fmap_ext. intros _ i _.
  apply list_fmap_ext. intros _ j _.
  apply count_permutation.
Qed.

Lemma accuracy_score_permutation :
  sklearn.accuracy_score ds.*1 ds.*2 = sklearn.accuracy_score ds'.*1 ds'.*2.
Proof using Hperm.
  unfold sklearn.accuracy_score. rewrite check_targets_permutation.
  rewrite (count_permutation (λ p, p.1 = p.2)).
  by rewrite !length_fmap, (Permutation_length Hperm).
Qed.

Lemma check_set_wise_labels_permutation pos_label :
  sklearn.check_set_wise_labels ds.*1 ds.*2 pos_label =
  sklearn.check_set_wise_labels ds'.*1 ds'.*2 pos_label.
Proof using Hperm.
  unfold sklearn.check_set_wise_labels.
  by rewrite check_targets_permutation, unique_labels_permutation.
Qed.

Lemma calculate_metrics_perm_invariant pos_label :
  calculate_metrics ds.*1 ds.*2 pos_label = calculate_metrics ds'.*1 ds'.*2 pos_label.
Proof using Hperm.
  unfold calculate_metrics, sklearn.precision_score, sklearn.recall_score,
    sklearn.f1_score, sklearn.tp_sum, sklearn.pred_sum, sklearn.true_sum.
  rewrite confusion_matrix_permutation, accuracy_score_permutation,
    check_set_wise_labels_permutation.
  rewrite (count_permutation (λ p, p.1 = pos_label ∧ p.2 = pos_label)).
  rewrite (count_permutation (λ p, p.2 = pos_label)).
  rewrite (count_permutation (λ p, p.1 = pos_label)).
  by rewrite !length_fmap, (Permutation_length Hperm).
Qed.
End permutation.

(** C9: on every permutation of a dataset's pairs [calculate_metrics] gives
    what it gives on the dataset: the same result, or the same error. *)
Theorem calculate_metrics_permutation (ds ds' : list (string * string)) pos_label :
  ds ≡ₚ ds' →
  calculate_metrics ds.*1 ds.*2 pos_label = calculate_metrics ds'.*1 ds'.*2 pos_label.
Proof. intros Hperm. by apply calculate_metrics_perm_invariant. Qed.

Lemma calculate_metrics_permutation_witness :
  calculate_metrics [("No", "No"); ("Yes", "Yes"); ("Yes", "No")].*1
                    [("No", "No"); ("Yes", "Yes"); ("Yes", "No")].*2 "Yes" =
  calculate_metrics [("Yes", "Yes"); ("Yes", "No"); ("No", "No")].*1
                    [("Yes", "Yes"); ("Yes", "No"); ("No", "No")].*2 "Yes".
Proof.
  apply (calculate_metrics_permutation
           [("No", "No"); ("Yes", "Yes"); ("Yes", "No")]
           [("Yes", "Yes"); ("Yes", "No"); ("No", "No")]).
  apply (Permutation_cons_append [("Yes", "Yes"); ("Yes", "No")] ("No", "No")).
Defined.

(** ** The command line *)

Lemma run_without_path env argv :
  length argv < 2 → run env argv = (1%Z, {| stdout := [Usage]; files := [] |}).
Proof.
  intros Hlen. destruct argv as [|prog [|csv_file rest]]; simpl in Hlen; [done..|lia].
Qed.

Lemma run_file_not_found env prog csv_file rest :
  read_csv env csv_file = inl file_not_found →
  run env (prog :: csv_file :: rest) =
  (1%Z, {| stdout := [Loading csv_file; ErrorFileNotFound csv_file]; files := [] |}).
Proof. intros Hread. run_main. by rewrite Hread. Qed.

Lemma run_missing_columns env prog csv_file rest df :
  read_csv env csv_file = inr df →
  missing_columns df ≠ [] →
  run env (prog :: csv_file :: rest) =
  (1%Z, {| stdout := [Loading csv_file; Loaded (df_len df);
                      MissingColumns (missing_columns df) (df_columns df)];
           files := [] |}).
Proof.
  intros Hread Hmissing. run_main. rewrite Hread. simpl.
  fold (missing_columns df). by rewrite bool_decide_true.
Qed.

Lemma exit_status_0_or_1 env argv :
  exit_status env argv = 0%Z ∧ succeeds env argv ∨
  exit_status env argv = 1%Z ∧ ¬ succeeds env argv.
Proof.
  destruct argv as [|prog [|csv_file rest]].
  1,2: right; split; [done|]; by intros (? & ? & ? & ? & ? & ? & _).
  run_main.
  destruct (read_csv env csv_file) as [[]|df] eqn:Hread; simpl.
  1,2: right; split; [done|]; intros (? & ? & ? & ? & ? & [= <- <- <-] & ? & _); congruence.
  fold (missing_columns df).
  destruct (decide (missing_columns df = [])) as [Hmissing|Hmissing].
  2:{ rewrite bool_decide_true by done. simpl.
      right; split; [done|].
      intros (? & ? & ? & ? & ? & [= <- <- <-] & ? & ? & _); congruence. }
  rewrite bool_decide_false by (by intros ?). simpl.
  repeat match goal with
         | |- context [ if bool_decide ?P then _ else _ ] => destruct (bool_decide P); simpl
         end.
  all: destruct (calculate_metrics _ _ _) as [e|m] eqn:Hm; simpl;
    [right; split; [done|];
     intros (? & ? & ? & ? & ? & [= <- <- <-] & ? & ? & ? & _); congruence|].
  all: destruct (classification_report env _ _) as [[]|] eqn:Hrep; simpl;
    [right; split; [done|];
     intros (? & ? & ? & ? & ? & [= <- <- <-] & ? & ? & ? & ? & _); congruence..|].
  all: destruct (open_w env _) as [[]|] eqn:Hopen; simpl;
    [right; split; [done|];
     intros (? & ? & ? & ? & ? & [= <- <- <-] & ? & ? & ? & ? & ?); congruence..|].
  all: left; split; [done|]; by exists prog, csv_file, rest, df, m.
Qed.

(** C8: the exit status is 1 when no path is given (after the usage text),
    when the file does not exist (after an error message), when a required
    column is absent (after the missing and the present columns are
    printed) and after any other failure of loading, computing or
    reporting; it is 0 on success. *)
Theorem main_exit_status env argv :
  (length argv < 2 →
   run env argv = (1%Z, {| stdout := [Usage]; files := [] |})) ∧
  (∀ prog csv_file rest, argv = prog :: csv_file :: rest →
     (read_csv env csv_file = inl file_not_found →
      run env argv =
      (1%Z, {| stdout := [Loading csv_file; ErrorFileNotFound csv_file]; files := [] |})) ∧
     (∀ df, read_csv env csv_file = inr df → missing_columns df ≠ [] →
      run env argv =
      (1%Z, {| stdout := [Loading csv_file; Loaded (df_len df);
                          MissingColumns (missing_columns df) (df_columns df)];
               files := [] |}))) ∧
  (¬ succeeds env argv → exit_status env argv = 1%Z) ∧
  (succeeds env argv → exit_status env argv = 0%Z).
Proof.
  split_and!.
  - apply run_without_path.
  - intros prog csv_file rest ->. split.
    + apply run_file_not_found.
    + intros df. apply run_missing_columns.
  - destruct (exit_status_0_or_1 env argv) as [[_ ?]|[? _]]; done.
  - destruct (exit_status_0_or_1 env argv) as [[? _]|[_ ?]]; done.
Qed.

Lemma main_exit_status_witness :
  run (one_file "data.csv" [("actual_label", ["Yes"]); ("predicted_label", ["Yes"])])
      ["verify_metrics.py"] = (1%Z, {| stdout := [Usage]; files := [] |}) ∧
  run (one_file "data.csv" [("actual_label", ["Yes"]); ("predicted_label", ["Yes"])])
      ["verify_metrics.py"; "other.csv"] =
    (1%Z, {| stdout := [Loading "other.csv"; ErrorFileNotFound "other.csv"];
             files := [] |}) ∧
  run (one_file "data.csv" [("actual_label", ["Yes"]); ("label", ["Yes"])])
      ["verify_metrics.py"; "data.csv"] =
    (1%Z, {| stdout := [Loading "data.csv"; Loaded 1;
                        MissingColumns ["predicted_label"] ["actual_label"; "label"]];
             files := [] |}) ∧
  exit_status (one_file "data.csv" [("actual_label", ["Yes"]); ("predicted_label", ["Yes"])])
      ["verify_metrics.py"; "data.csv"] = 0%Z.
Proof.
  split_and!.
  - apply (main_exit_status
             (one_file "data.csv" [("actual_label", ["Yes"]); ("predicted_label", ["Yes"])])
             ["verify_metrics.py"]).
    simpl. lia.
  - eapply (main_exit_status
              (one_file "data.csv" [("actual_label", ["Yes"]); ("predicted_label", ["Yes"])])
              ["verify_metrics.py"; "other.csv"]); reflexivity.
  - refine (proj2 (proj1 (proj2 (main_exit_status
              (one_file "data.csv" [("actual_label", ["Yes"]); ("label", ["Yes"])])
              ["verify_metrics.py"; "data.csv"])) _ _ _ eq_refl)
              [("actual_label", ["Yes"]); ("label", ["Yes"])] eq_refl _).
    vm_compute. discriminate.
  - apply (main_exit_status
             (one_file "data.csv" [("actual_label", ["Yes"]); ("predicted_label", ["Yes"])])
             ["verify_metrics.py"; "data.csv"]).
    eexists _, _, _, _, _. split_and!; reflexivity.
Defined.

(** ** The artifact *)

(** A successful run writes one file: the returned record, with its ten
    fields, at the path [str.replace] derives from the input path. *)
Lemma run_writes_artifact env prog csv_file rest df metrics :
  read_csv env csv_file = inr df →
  missing_columns df = [] →
  calculate_metrics (df_get df "actual_label") (df_get df "predicted_label") "Yes"
    = inr metrics →
  classification_report env (df_get df "actual_label") (df_get df "predicted_label")
    = None →
  open_w env (str_replace csv_file ".csv" "_python_metrics.json") = None →
  files (run env (prog :: csv_file :: rest)).2 =
  [(str_replace csv_file ".csv" "_python_metrics.json", metrics)].
Proof.
  intros Hread Hmissing Hm Hrep Hopen. run_main. rewrite Hread. simpl.
  fold (missing_columns df). rewrite bool_decide_false by (by intros ?). simpl.
  repeat match goal with
         | |- context [ if bool_decide ?P then _ else _ ] => destruct (bool_decide P); simpl
         end.
  all: by rewrite Hm; simpl; rewrite Hrep; simpl; rewrite Hopen.
Qed.

Example output_file_of_csv :
  str_replace "exported_test_data.csv" ".csv" "_python_metrics.json" =
  "exported_test_data_python_metrics.json".
Proof. reflexivity. Qed.

(** C7 fails on an input path without ".csv": nothing is replaced, the
    artifact's path is the input's, and the run overwrites its own input. *)
Theorem artifact_overwrites_input :
  str_replace "labels.txt" ".csv" "_python_metrics.json" = "labels.txt" ∧
  ∃ metrics,
    run (one_file "labels.txt" [("actual_label", ["Yes"; "No"]);
                                ("predicted_label", ["Yes"; "No"])])
        ["verify_metrics.py"; "labels.txt"] =
    (0%Z, {| stdout := [Loading "labels.txt"; Loaded 2; LabelDistribution 1 1 1 1;
                        Calculating; Results metrics; ClassificationReport;
                        Saved "labels.txt"; Complete];
             files := [("labels.txt", metrics)] |}).
Proof. split; [reflexivity|]. eexists. vm_compute. reflexivity. Qed.

(** ** Labels outside the domain *)

(** Three distinct label values make every binary metric raise. *)
Lemma calculate_metrics_three_labels y_true y_pred pos_label :
  2 < size (sklearn.unique_labels y_true y_pred) →
  ∃ e, calculate_metrics y_true y_pred pos_label = inl e.
Proof.
  intros Hsize.
  destruct (calculate_metrics y_true y_pred pos_label) as [e|r] eqn:Hr; [by exists e|].
  apply calculate_metrics_inr in Hr as (_ & ? & _). lia.
Qed.

(** C2 fails on [(Yes,Yes), (Maybe,No)]: the warning is printed, then
    [precision_score] raises on the third label value, the handler prints
    the error, nothing is written and the exit status is 1. *)
Theorem invalid_label_aborts :
  calculate_metrics ["Yes"; "Maybe"] ["Yes"; "No"] "Yes" = inl MulticlassTarget ∧
  run (one_file "data.csv" [("actual_label", ["Yes"; "Maybe"]);
                            ("predicted_label", ["Yes"; "No"])])
      ["verify_metrics.py"; "data.csv"] =
  (1%Z, {| stdout := [Loading "data.csv"; Loaded 2; WarnInvalidActual {["Maybe"]};
                      LabelDistribution 1 0 1 1; Calculating; ErrorUnexpected];
           files := [] |}).
Proof. split; vm_compute; reflexivity. Qed.

(** ** Datasets inside the domain *)

(** On two non-empty columns of equal length with every label in
    {"Yes", "No"} no library call raises: [calculate_metrics] returns a
    result. *)
Lemma calculate_metrics_returns_on_valid y_true y_pred :
  length y_true = length y_pred → y_true ≠ [] →
  Forall valid_label y_true → Forall valid_label y_pred →
  ∃ r, calculate_metrics y_true y_pred "Yes" = inr r.
Proof.
  intros Hlen Hne Htrue Hpred.
  assert (sklearn.unique_labels y_true y_pred ⊆ {["Yes"; "No"]}) as Hsub.
  { unfold sklearn.unique_labels. intros x Hx.
    apply elem_of_list_to_set, elem_of_app in Hx.
    rewrite Forall_forall in Htrue, Hpred.
    destruct Hx as [Hx|Hx]; [apply Htrue in Hx|apply Hpred in Hx];
      destruct Hx as [-> | ->]; set_solver. }
  assert (size (sklearn.unique_labels y_true y_pred) ≤ 2) as Hsize.
  { apply subseteq_size in Hsub. by rewrite size_union, !size_singleton in Hsub by set_solver. }
  assert (sklearn.check_targets y_true y_pred = inr sklearn.binary) as Htargets.
  { unfold sklearn.check_targets, sklearn.check_consistent_length.
    destruct (decide (length y_true = length y_pred)); [|done]. simpl.
    destruct (decide (y_true = [])); [done|]. by rewrite decide_True. }
  assert (sklearn.check_set_wise_labels y_true y_pred "Yes" = inr ()) as Hset.
  { unfold sklearn.check_set_wise_labels. rewrite Htargets. simpl.
    rewrite decide_False; [done|]. intros [Hyes Htwo].
    assert (sklearn.unique_labels y_true y_pred ⊆ {["No"]}) as Hno by set_solver.
    apply subseteq_size in Hno. rewrite size_singleton in Hno. lia. }
  unfold calculate_metrics, sklearn.confusion_matrix, sklearn.accuracy_score,
    sklearn.precision_score, sklearn.recall_score, sklearn.f1_score.
  rewrite Htargets, Hset. simpl.
  rewrite decide_False; [by eexists|].
  destruct y_true as [|y y_true]; [done|].
  intros [Hy _]%Forall_cons. apply Hy.
  apply Forall_cons in Htrue as [[-> | ->] _]; set_solver.
Qed.


(** * Further properties of the code *)

(** ** When calculate_metrics raises *)

Lemma confusion_matrix_returns y_true y_pred pos_label :
  length y_true = length y_pred →
  (∃ cm, sklearn.confusion_matrix y_true y_pred [pos_label; "No"] = inr cm) ↔
  (∃ y, y ∈ y_true ∧ (y = pos_label ∨ y = "No")).
Proof.
  intros Hlen.
  unfold sklearn.confusion_matrix, sklearn.check_targets, sklearn.check_consistent_length.
  destruct (decide (length y_true = length y_pred)); [|done]. simpl.
  destruct (decide (y_true = [])) as [->|Hne]; simpl.
  { split; [by intros [? ?]|]. intros (y & Hy & _). by apply elem_of_nil in Hy. }
  destruct (decide (Forall (λ y, y ∉ [pos_label; "No"]) y_true)) as [Hall|Hsome].
  - split; [by intros [? ?]|].
    intros (y & Hy & Hlab).
    rewrite Forall_forall in Hall. destruct (Hall y Hy).
    destruct Hlab as [-> | ->]; set_solver.
  - split; [|by eexists]. intros _.
    apply not_Forall_Exists in Hsome; [|apply _].
    apply Exists_exists in Hsome as (y & Hy & Hin).
    exists y. split; [done|].
    apply dec_stable in Hin. set_solver.
Qed.

Lemma check_set_wise_labels_returns y_true y_pred pos_label :
  sklearn.check_set_wise_labels y_true y_pred pos_label = inr () ↔
  length y_true = length y_pred ∧ y_true ≠ [] ∧
  size (sklearn.unique_labels y_true y_pred) ≤ 2 ∧
  (pos_label ∈ sklearn.unique_labels y_true y_pred ∨
   size (sklearn.unique_labels y_true y_pred) < 2).
Proof.
  split; [apply check_set_wise_labels_inr|].
  intros (Hlen & Hne & Hsize & Hpos).
  unfold sklearn.check_set_wise_labels, sklearn.check_targets,
    sklearn.check_consistent_length.
  destruct (decide (length y_true = length y_pred)); [|done]. simpl.
  destruct (decide (y_true = [])); [done|]. simpl.
  destruct (decide (size (sklearn.unique_labels y_true y_pred) ≤ 2)); [|done].
  rewrite decide_False; [done|]. intros [? ?]. destruct Hpos; [done|lia].
Qed.

Lemma calculate_metrics_returns y_true y_pred pos_label :
  length y_true = length y_pred →
  size (sklearn.unique_labels y_true y_pred) ≤ 2 →
  (∃ y, y ∈ y_true ∧ (y = pos_label ∨ y = "No")) →
  (pos_label ∈ sklearn.unique_labels y_true y_pred ∨
   size (sklearn.unique_labels y_true y_pred) < 2) →
  ∃ r, calculate_metrics y_true y_pred pos_label = inr r.
Proof.
  intros Hlen Hsize Hlab Hpos.
  assert (y_true ≠ []) as Hne.
  { destruct Hlab as (y & Hy & _). intros ->. by apply elem_of_nil in Hy. }
  apply (confusion_matrix_returns _ _ pos_label Hlen) in Hlab as [cm Hcm].
  assert (sklearn.check_set_wise_labels y_true y_pred pos_label = inr ()) as Hset
    by by apply check_set_wise_labels_returns.
  unfold calculate_metrics, sklearn.accuracy_score, sklearn.precision_score,
    sklearn.recall_score, sklearn.f1_score, sklearn.check_targets,
    sklearn.check_consistent_length.
  rewrite Hcm, Hset. simpl.
  destruct (decide (length y_true = length y_pred)); [|done]. simpl.
  destruct (decide (y_true = [])); [done|]. simpl. by eexists.
Qed.

(** [calculate_metrics] returns a result exactly when the columns have the
    same length, at most two distinct label values occur, some actual label
    is [pos_label] or "No" (so there is at least one row), and [pos_label]
    occurs unless fewer than two values do; otherwise a library call
    raises. *)
Theorem calculate_metrics_returns_iff y_true y_pred pos_label :
  (∃ r, calculate_metrics y_true y_pred pos_label = inr r) ↔
  length y_true = length y_pred ∧
  size (sklearn.unique_labels y_true y_pred) ≤ 2 ∧
  (∃ y, y ∈ y_true ∧ (y = pos_label ∨ y = "No")) ∧
  (pos_label ∈ sklearn.unique_labels y_true y_pred ∨
   size (sklearn.unique_labels y_true y_pred) < 2).
Proof.
  split.
  - intros [r Hr].
    pose proof (calculate_metrics_inr _ _ _ _ Hr) as ([Hlen Hne] & Hsize & _).
    unfold calculate_metrics in Hr.
    destruct (sklearn.confusion_matrix _ _ _) as [e|cm] eqn:Hcm; simpl in Hr; [done|].
    assert (∃ cm, sklearn.confusion_matrix y_true y_pred [pos_label; "No"] = inr cm)
      as Hex by eauto.
    apply confusion_matrix_returns in Hex; [|done].
    destruct (sklearn.accuracy_score _ _) as [e|a]; simpl in Hr; [done|].
    unfold sklearn.precision_score in Hr.
    destruct (sklearn.check_set_wise_labels _ _ _) as [e|[]] eqn:Hset; simpl in Hr; [done|].
    apply check_set_wise_labels_returns in Hset as (_ & _ & _ & Hpos).
    done.
  - intros (Hlen & Hsize & Hlab & Hpos). by apply calculate_metrics_returns.
Qed.

(** Columns of different lengths are rejected by the first library call. *)
Theorem calculate_metrics_inconsistent_length y_true y_pred pos_label :
  length y_true ≠ length y_pred →
  calculate_metrics y_true y_pred pos_label = inl InconsistentLength.
Proof.
  intros Hlen.
  unfold calculate_metrics, sklearn.confusion_matrix, sklearn.check_targets,
    sklearn.check_consistent_length.
  by destruct (decide (length y_true = length y_pred)).
Qed.

Lemma calculate_metrics_inconsistent_length_witness :
  calculate_metrics ["Yes"; "No"] ["Yes"] "Yes" = inl InconsistentLength.
Proof.
  apply (calculate_metrics_inconsistent_length ["Yes"; "No"] ["Yes"] "Yes").
  simpl. lia.
Defined.

(** ** Ratios of counts *)

Lemma prf_divide_bounds n d : n ≤ d → (0 <= prf_divide n d <= 1)%Q.
Proof.
  intros Hle. unfold prf_divide. case_decide; [done|].
  rewrite Qred_correct. unfold Qle. simpl. lia.
Qed.

Lemma prf_divide_all n : 0 < n → (prf_divide n n == 1)%Q.
Proof.
  intros Hn. unfold prf_divide. rewrite decide_False by lia.
  rewrite Qred_correct. unfold Qeq. simpl. lia.
Qed.

Lemma prf_divide_none d : (prf_divide 0 d == 0)%Q.
Proof.
  unfold prf_divide. case_decide; [done|]. by rewrite Qred_correct.
Qed.

Lemma prf_divide_eq_1 n d : 0 < d → (prf_divide n d == 1)%Q ↔ n = d.
Proof.
  intros Hd. unfold prf_divide. rewrite decide_False by lia.
  rewrite Qred_correct. unfold Qeq. simpl. lia.
Qed.

Lemma count_fst_snd (P : string * string → Prop) `{∀ p, Decision (P p)}
    (ds : list (string * string)) :
  sklearn.count P ds.*1 ds.*2 = length (filter P ds).
Proof. unfold sklearn.count. by rewrite zip_fst_snd. Qed.

(** The accuracy of a returned result, as a ratio of two counts. *)
Lemma accuracy_inr y_true y_pred pos_label r :
  calculate_metrics y_true y_pred pos_label = inr r →
  y_true ≠ [] →
  ∃ a, accuracy r = Num a ∧
       (a == prf_divide (sklearn.count (λ p, p.1 = p.2) y_true y_pred) (length y_true))%Q.
Proof.
  intros Hr Hne.
  apply calculate_metrics_inr in Hr as (_ & _ & _ & _ & _ & _ & _ & _ & -> & _).
  eexists. split; [done|].
  unfold prf_divide. rewrite decide_False; [done|]. by destruct y_true.
Qed.

(** ** Ranges *)

(** Every returned precision, recall, F1 and accuracy is a number in
    [0, 1]; a result is returned only for a dataset with at least one
    pair. *)
Theorem metrics_in_unit_interval y_true y_pred pos_label r :
  calculate_metrics y_true y_pred pos_label = inr r →
  (0 <= precision r <= 1)%Q ∧ (0 <= recall r <= 1)%Q ∧ (0 <= f1_score r <= 1)%Q ∧
  y_true ≠ [] ∧ ∃ a, accuracy r = Num a ∧ (0 <= a <= 1)%Q.
Proof.
  intros Hr.
  pose proof (calculate_metrics_inr _ _ _ _ Hr)
    as ([_ Hne] & _ & _ & _ & _ & _ & _ & _ & Hacc & -> & -> & ->).
  assert (sklearn.tp_sum y_true y_pred pos_label ≤ sklearn.pred_sum y_true y_pred pos_label)
    as Hps by (apply filter_length_mono; naive_solver).
  assert (sklearn.tp_sum y_true y_pred pos_label ≤ sklearn.true_sum y_true y_pred pos_label)
    as Hts by (apply filter_length_mono; naive_solver).
  split_and!; try (apply prf_divide_bounds; lia); [done|].
  destruct (accuracy_inr _ _ _ _ Hr Hne) as (a & Ha & Heq).
  exists a. split; [done|]. rewrite Heq. apply prf_divide_bounds.
  unfold sklearn.count. etrans; [apply length_filter|].
  rewrite length_zip_with. lia.
Qed.

Lemma metrics_in_unit_interval_witness :
  ∃ r, calculate_metrics ["Yes"; "No"; "No"] ["Yes"; "Yes"; "No"] "Yes" = inr r ∧
       (0 <= precision r <= 1)%Q ∧ (0 <= recall r <= 1)%Q ∧ (0 <= f1_score r <= 1)%Q ∧
       ∃ a, accuracy r = Num a ∧ (0 <= a <= 1)%Q.
Proof.
  eexists. split; [vm_compute; reflexivity|].
  pose proof (metrics_in_unit_interval ["Yes"; "No"; "No"] ["Yes"; "Yes"; "No"] "Yes"
                _ eq_refl) as (HP & HR & HF & _ & HA).
  by split_and!.
Defined.

(** ** Uniform datasets *)

Lemma filter_length_zero {A} (P : A → Prop) `{∀ x, Decision (P x)} (l : list A) :
  Forall (λ x, ¬ P x) l → length (filter P l) = 0.
Proof.
  induction 1 as [|x l Hx _ IH]; [done|].
  rewrite filter_cons. by rewrite decide_False.
Qed.

Lemma filter_length_full {A} (P : A → Prop) `{∀ x, Decision (P x)} (l : list A) :
  Forall P l → length (filter P l) = length l.
Proof. apply filter_length_all. Qed.

(** Settles each count over a dataset whose pairs all satisfy one
    hypothesis: the count is the whole length or zero. *)
Ltac count_uniform ds :=
  repeat match goal with
         | |- context [ length (filter ?P ds) ] =>
             first [ rewrite (filter_length_full P ds)
                       by (eapply Forall_impl; [eassumption|];
                           intros [? ?]; simpl; intuition congruence)
                   | rewrite (filter_length_zero P ds)
                       by (eapply Forall_impl; [eassumption|];
                           intros [? ?]; simpl; intuition congruence) ]
         end.

Lemma unique_labels_subseteq (ds : list (string * string)) (S : gset string) :
  Forall (λ p, p.1 ∈ S ∧ p.2 ∈ S) ds →
  sklearn.unique_labels ds.*1 ds.*2 ⊆ S.
Proof.
  rewrite Forall_forall. intros Hds x.
  unfold sklearn.unique_labels.
  rewrite elem_of_list_to_set, elem_of_app, !list_elem_of_fmap.
  intros [([a p] & -> & Hin)|([a p] & -> & Hin)]; by apply Hds in Hin as [? ?].
Qed.

Lemma actual_label_of_nonempty (ds : list (string * string)) (P : string → Prop) :
  ds ≠ [] → Forall (λ p, P p.1) ds → ∃ y, y ∈ ds.*1 ∧ P y.
Proof.
  destruct ds as [|[a p] ds]; [done|]. intros _ [Ha _]%Forall_cons.
  exists a. split; [left|done].
Qed.

(** If every pair is (pos_label, pos_label), on a non-empty dataset, the
    result has tp = N, fn = fp = tn = 0 and accuracy, precision, recall and
    F1 all 1. *)
Theorem all_true_positives (ds : list (string * string)) pos_label :
  pos_label ≠ "No" → ds ≠ [] →
  Forall (λ p, p.1 = pos_label ∧ p.2 = pos_label) ds →
  ∃ r, calculate_metrics ds.*1 ds.*2 pos_label = inr r ∧
       tp r = length ds ∧ fn r = 0 ∧ fp r = 0 ∧ tn r = 0 ∧
       total_samples r = length ds ∧
       is_number (accuracy r) 1 ∧
       (precision r == 1)%Q ∧ (recall r == 1)%Q ∧ (f1_score r == 1)%Q.
Proof.
  intros Hpos Hne Hall.
  assert (0 < length ds) as Hlen by (destruct ds; [done|simpl; lia]).
  assert (sklearn.unique_labels ds.*1 ds.*2 ⊆ {[pos_label]}) as Hsub.
  { apply unique_labels_subseteq. eapply Forall_impl; [done|]. set_solver. }
  apply subseteq_size in Hsub. rewrite size_singleton in Hsub.
  destruct (calculate_metrics_returns ds.*1 ds.*2 pos_label) as [r Hr].
  { by rewrite !length_fmap. }
  { lia. }
  { destruct (actual_label_of_nonempty ds (λ y, y = pos_label) Hne) as (y & ? & ?).
    - eapply Forall_impl; [done|]. naive_solver.
    - eauto. }
  { right. lia. }
  exists r. split; [done|].
  pose proof (counts_over_pos_label_and_No _ _ _ _ Hr Hpos) as (-> & -> & -> & ->).
  assert (ds.*1 ≠ []) as Hne1 by (by intros ?%fmap_nil_inv).
  destruct (accuracy_inr _ _ _ _ Hr Hne1) as (a & -> & Ha).
  apply calculate_metrics_inr in Hr
    as (_ & _ & _ & _ & _ & _ & _ & -> & _ & -> & -> & ->).
  unfold sklearn.tp_sum, sklearn.pred_sum, sklearn.true_sum. simpl.
  rewrite Ha, !count_fst_snd, !length_fmap.
  count_uniform ds.
  replace (length ds + (length ds + 0)) with (length ds + length ds) by lia.
  split_and!; try done; apply prf_divide_all; lia.
Qed.

Lemma all_true_positives_witness :
  ∃ r, calculate_metrics ["Yes"; "Yes"] ["Yes"; "Yes"] "Yes" = inr r ∧
       tp r = 2 ∧ (precision r == 1)%Q ∧ (recall r == 1)%Q ∧ (f1_score r == 1)%Q.
Proof.
  destruct (all_true_positives [("Yes", "Yes"); ("Yes", "Yes")] "Yes")
    as (r & Hr & Htp & _ & _ & _ & _ & _ & HP & HR & HF).
  - discriminate.
  - discriminate.
  - repeat constructor.
  - exists r. by split_and!.
Defined.

(** If every pair is (pos_label, "No"), on a non-empty dataset, the result
    has fn = N, tp = fp = tn = 0 and accuracy, precision, recall and F1
    all 0. *)
Theorem all_false_negatives (ds : list (string * string)) pos_label :
  pos_label ≠ "No" → ds ≠ [] →
  Forall (λ p, p.1 = pos_label ∧ p.2 = "No") ds →
  ∃ r, calculate_metrics ds.*1 ds.*2 pos_label = inr r ∧
       tp r = 0 ∧ fn r = length ds ∧ fp r = 0 ∧ tn r = 0 ∧
       total_samples r = length ds ∧
       is_number (accuracy r) 0 ∧
       (precision r == 0)%Q ∧ (recall r == 0)%Q ∧ (f1_score r == 0)%Q.
Proof.
  intros Hpos Hne Hall.
  assert (sklearn.unique_labels ds.*1 ds.*2 ⊆ {[pos_label; "No"]}) as Hsub.
  { apply unique_labels_subseteq. eapply Forall_impl; [done|]. set_solver. }
  apply subseteq_size in Hsub.
  rewrite size_union, !size_singleton in Hsub by set_solver.
  destruct (actual_label_of_nonempty ds (λ y, y = pos_label) Hne) as (y & Hy & ->).
  { eapply Forall_impl; [done|]. naive_solver. }
  destruct (calculate_metrics_returns ds.*1 ds.*2 pos_label) as [r Hr].
  { by rewrite !length_fmap. }
  { lia. }
  { eauto. }
  { left. unfold sklearn.unique_labels. set_solver. }
  exists r. split; [done|].
  pose proof (counts_over_pos_label_and_No _ _ _ _ Hr Hpos) as (-> & -> & -> & ->).
  assert (ds.*1 ≠ []) as Hne1 by (by intros ?%fmap_nil_inv).
  destruct (accuracy_inr _ _ _ _ Hr Hne1) as (a & -> & Ha).
  apply calculate_metrics_inr in Hr
    as (_ & _ & _ & _ & _ & _ & _ & -> & _ & -> & -> & ->).
  unfold sklearn.tp_sum, sklearn.pred_sum, sklearn.true_sum. simpl.
  rewrite Ha, !count_fst_snd, !length_fmap.
  count_uniform ds.
  split_and!; try done; apply prf_divide_none.
Qed.

Lemma all_false_negatives_witness :
  ∃ r, calculate_metrics ["Yes"; "Yes"] ["No"; "No"] "Yes" = inr r ∧
       fn r = 2 ∧ (precision r == 0)%Q ∧ (recall r == 0)%Q ∧ (f1_score r == 0)%Q.
Proof.
  destruct (all_false_negatives [("Yes", "No"); ("Yes", "No")] "Yes")
    as (r & Hr & _ & Hfn & _ & _ & _ & _ & HP & HR & HF).
  - discriminate.
  - discriminate.
  - repeat constructor.
  - exists r. by split_and!.
Defined.

(** ** Predictions that match the labels *)

Lemma zip_agree (y_true y_pred : list string) :
  length y_true = length y_pred →
  Forall (λ p, p.1 = p.2) (zip y_true y_pred) ↔ y_true = y_pred.
Proof.
  revert y_pred. induction y_true as [|a y_true IH]; intros [|p y_pred] Hlen;
    simpl in *; try done.
  rewrite Forall_cons, IH by lia. simpl. naive_solver.
Qed.

(** On a non-empty dataset the accuracy is 1 exactly when the predicted
    column equals the actual column. *)
Theorem accuracy_one_iff_equal y_true y_pred pos_label r :
  calculate_metrics y_true y_pred pos_label = inr r →
  y_true ≠ [] →
  is_number (accuracy r) 1 ↔ y_true = y_pred.
Proof.
  intros Hr Hne.
  destruct (accuracy_inr _ _ _ _ Hr Hne) as (a & -> & Ha).
  apply calculate_metrics_inr in Hr as ([Hlen _] & _).
  simpl. rewrite Ha, prf_divide_eq_1 by (destruct y_true; [done|simpl; lia]).
  rewrite <- zip_agree by done.
  unfold sklearn.count. rewrite <- filter_length_all.
  by rewrite length_zip_with, <- Hlen, Nat.min_id.
Qed.

Lemma accuracy_one_iff_equal_witness :
  ∃ r, calculate_metrics ["Yes"; "No"] ["Yes"; "No"] "Yes" = inr r ∧
       is_number (accuracy r) 1.
Proof.
  eexists. split; [vm_compute; reflexivity|].
  apply (accuracy_one_iff_equal ["Yes"; "No"] ["Yes"; "No"] "Yes" _ eq_refl); done.
Defined.

Lemma count_diagonal (P : string * string → Prop) `{∀ p, Decision (P p)}
    (Q : string → Prop) `{∀ y, Decision (Q y)} (y : list string) :
  (∀ x, P (x, x) ↔ Q x) →
  sklearn.count P y y = length (filter Q y).
Proof.
  intros HPQ. unfold sklearn.count.
  induction y as [|x y IH]; [done|].
  simpl. rewrite !filter_cons. specialize (HPQ x).
  repeat case_decide; simpl; try tauto; by rewrite IH.
Qed.

(** If the predicted column equals the actual column, all labels are in
    {"Yes", "No"} and "Yes" occurs, then nothing is misclassified and
    accuracy, precision, recall and F1 are all 1. *)
Theorem perfect_prediction (y : list string) :
  Forall valid_label y → "Yes" ∈ y →
  ∃ r, calculate_metrics y y "Yes" = inr r ∧
       fp r = 0 ∧ fn r = 0 ∧ tp r + tn r = length y ∧
       is_number (accuracy r) 1 ∧
       (precision r == 1)%Q ∧ (recall r == 1)%Q ∧ (f1_score r == 1)%Q.
Proof.
  intros Hvalid Hyes.
  assert (y ≠ []) as Hne by (by intros ->; apply elem_of_nil in Hyes).
  destruct (calculate_metrics_returns_on_valid y y eq_refl Hne Hvalid Hvalid) as [r Hr].
  exists r. split; [done|].
  assert (0 < length (filter (λ x, x = "Yes") y)) as Hpos.
  { assert ("Yes" ∈ filter (λ x, x = "Yes") y) as Hin by (by apply list_elem_of_filter).
    destruct (filter _ y); [by apply elem_of_nil in Hin|simpl; lia]. }
  pose proof (counts_over_pos_label_and_No _ _ _ _ Hr ltac:(done)) as (Htp & -> & -> & Htn).
  destruct (accuracy_inr _ _ _ _ Hr Hne) as (a & -> & Ha).
  assert (Forall valid_pair (dataset y y)) as Hpairs.
  { unfold dataset. clear -Hvalid. induction Hvalid; constructor; by auto. }
  pose proof (valid_dataset_sums _ _ _ Hr Hpairs) as (_ & _ & Hagree & _).
  apply calculate_metrics_inr in Hr
    as (_ & _ & _ & _ & _ & _ & _ & _ & _ & -> & -> & ->).
  unfold sklearn.tp_sum, sklearn.pred_sum, sklearn.true_sum.
  rewrite (count_diagonal (λ p, p.1 = "Yes" ∧ p.2 = "Yes") (λ x, x = "Yes"))
    by (intros ?; simpl; intuition congruence).
  rewrite (count_diagonal (λ p, p.2 = "Yes") (λ x, x = "Yes")) by (intros ?; simpl; intuition congruence).
  rewrite (count_diagonal (λ p, p.1 = "Yes") (λ x, x = "Yes")) by (intros ?; simpl; intuition congruence).
  rewrite (count_diagonal (λ p, p.1 = "Yes" ∧ p.2 = "No") (λ x, False)) by (intros ?; simpl; intuition congruence).
  rewrite (count_diagonal (λ p, p.1 = "No" ∧ p.2 = "Yes") (λ x, False)) by (intros ?; simpl; intuition congruence).
  rewrite !(filter_length_none (λ _, False)) by tauto.
  rewrite <- Hagree, (count_diagonal (λ p, p.1 = p.2) (λ x, True)) by (intros ?; simpl; intuition congruence).
  rewrite (filter_length_full (λ _, True)) by (by apply Forall_true).
  unfold is_number. rewrite Ha.
  rewrite (count_diagonal (λ p, p.1 = p.2) (λ x, True)) by (intros ?; simpl; intuition congruence).
  rewrite (filter_length_full (λ _, True)) by (by apply Forall_true).
  replace (2 * length (filter (λ x, x = "Yes") y))
    with (length (filter (λ x, x = "Yes") y) + length (filter (λ x, x = "Yes") y)) by lia.
  split_and!; try done; apply prf_divide_all; try lia.
  destruct y; [done|simpl; lia].
Qed.

Lemma perfect_prediction_witness :
  ∃ r, calculate_metrics ["Yes"; "No"; "Yes"] ["Yes"; "No"; "Yes"] "Yes" = inr r ∧
       (precision r == 1)%Q ∧ (recall r == 1)%Q ∧ (f1_score r == 1)%Q.
Proof.
  destruct (perfect_prediction ["Yes"; "No"; "Yes"])
    as (r & Hr & _ & _ & _ & _ & HP & HR & HF).
  - apply (bool_decide_unpack _). vm_compute. exact I.
  - left.
  - exists r. by split_and!.
Defined.

(** ** Exchanging the two columns *)

Lemma count_swap (P Q : string * string → Prop)
    `{∀ p, Decision (P p)} `{∀ p, Decision (Q p)} (y_true y_pred : list string) :
  (∀ a p, P (p, a) ↔ Q (a, p)) →
  sklearn.count P y_pred y_true = sklearn.count Q y_true y_pred.
Proof.
  intros HPQ. unfold sklearn.count.
  revert y_pred. induction y_true as [|a y_true IH]; intros [|p y_pred]; try done.
  simpl. rewrite !filter_cons. specialize (HPQ a p).
  repeat case_decide; simpl; try tauto; by rewrite IH.
Qed.

Lemma unique_labels_swap y_true y_pred :
  sklearn.unique_labels y_pred y_true = sklearn.unique_labels y_true y_pred.
Proof. unfold sklearn.unique_labels. set_solver. Qed.

(** Calling [calculate_metrics] with the two columns exchanged exchanges
    precision with recall and fp with fn, and keeps tp, tn, accuracy, F1 and
    total_samples. *)
Theorem exchange_columns y_true y_pred pos_label r r' :
  calculate_metrics y_true y_pred pos_label = inr r →
  calculate_metrics y_pred y_true pos_label = inr r' →
  tp r' = tp r ∧ tn r' = tn r ∧ fp r' = fn r ∧ fn r' = fp r ∧
  precision r' = recall r ∧ recall r' = precision r ∧
  f1_score r' = f1_score r ∧ accuracy r' = accuracy r ∧
  total_samples r' = total_samples r.
Proof.
  intros Hr Hr'.
  apply calculate_metrics_inr in Hr
    as ([Hlen _] & _ & -> & -> & -> & -> & _ & -> & -> & -> & -> & ->).
  apply calculate_metrics_inr in Hr'
    as (_ & _ & -> & -> & -> & -> & _ & -> & -> & -> & -> & ->).
  unfold sklearn.tp_sum, sklearn.pred_sum, sklearn.true_sum.
  rewrite (count_swap (λ p, p.1 = pos_label ∧ p.2 = pos_label)
             (λ p, p.1 = pos_label ∧ p.2 = pos_label) y_true y_pred)
    by (simpl; intuition congruence).
  rewrite (count_swap (λ p, p.2 = pos_label) (λ p, p.1 = pos_label) y_true y_pred)
    by (simpl; intuition congruence).
  rewrite (count_swap (λ p, p.1 = pos_label) (λ p, p.2 = pos_label) y_true y_pred)
    by (simpl; intuition congruence).
  rewrite (count_swap (λ p, p.1 = p.2) (λ p, p.1 = p.2) y_true y_pred)
    by (simpl; intuition congruence).
  rewrite (Nat.add_comm (sklearn.count (λ p, p.2 = pos_label) y_true y_pred)).
  rewrite <- Hlen.
  split_and!; try done; apply count_swap; simpl; intuition congruence.
Qed.

Lemma exchange_columns_witness :
  ∃ r r',
    calculate_metrics ["Yes"; "Yes"; "No"] ["Yes"; "No"; "No"] "Yes" = inr r ∧
    calculate_metrics ["Yes"; "No"; "No"] ["Yes"; "Yes"; "No"] "Yes" = inr r' ∧
    precision r' = recall r ∧ recall r' = precision r ∧ fp r' = fn r ∧ fn r' = fp r.
Proof.
  eexists _, _. split; [vm_compute; reflexivity|]. split; [vm_compute; reflexivity|].
  pose proof (exchange_columns ["Yes"; "Yes"; "No"] ["Yes"; "No"; "No"] "Yes" _ _
                eq_refl eq_refl) as (_ & _ & Hfp & Hfn & HP & HR & _).
  by split_and!.
Defined.

(** ** Joining datasets *)

(** The four confusion counts and total_samples of two datasets add up to
    those of the datasets put one after the other. *)
Theorem counts_of_concatenation (ds1 ds2 : list (string * string)) pos_label r1 r2 r :
  calculate_metrics ds1.*1 ds1.*2 pos_label = inr r1 →
  calculate_metrics ds2.*1 ds2.*2 pos_label = inr r2 →
  calculate_metrics (ds1 ++ ds2)%list.*1 (ds1 ++ ds2)%list.*2 pos_label = inr r →
  tp r = tp r1 + tp r2 ∧ tn r = tn r1 + tn r2 ∧
  fp r = fp r1 + fp r2 ∧ fn r = fn r1 + fn r2 ∧
  total_samples r = total_samples r1 + total_samples r2.
Proof.
  intros Hr1 Hr2 Hr.
  apply calculate_metrics_inr in Hr1 as (_ & _ & -> & -> & -> & -> & _ & -> & _).
  apply calculate_metrics_inr in Hr2 as (_ & _ & -> & -> & -> & -> & _ & -> & _).
  apply calculate_metrics_inr in Hr as (_ & _ & -> & -> & -> & -> & _ & -> & _).
  rewrite !count_fst_snd, !filter_app, !length_fmap, !length_app.
  done.
Qed.

Lemma counts_of_concatenation_witness :
  ∃ r1 r2 r,
    calculate_metrics [("Yes", "Yes"); ("No", "Yes")].*1
                      [("Yes", "Yes"); ("No", "Yes")].*2 "Yes" = inr r1 ∧
    calculate_metrics [("Yes", "No"); ("No", "No")].*1
                      [("Yes", "No"); ("No", "No")].*2 "Yes" = inr r2 ∧
    calculate_metrics ([("Yes", "Yes"); ("No", "Yes")] ++ [("Yes", "No"); ("No", "No")])%list.*1
                      ([("Yes", "Yes"); ("No", "Yes")] ++ [("Yes", "No"); ("No", "No")])%list.*2
                      "Yes" = inr r ∧
    tp r = tp r1 + tp r2 ∧ tn r = tn r1 + tn r2 ∧
    fp r = fp r1 + fp r2 ∧ fn r = fn r1 + fn r2.
Proof.
  eexists _, _, _.
  split; [vm_compute; reflexivity|]. split; [vm_compute; reflexivity|].
  split; [vm_compute; reflexivity|].
  pose proof (counts_of_concatenation
                [("Yes", "Yes"); ("No", "Yes")] [("Yes", "No"); ("No", "No")] "Yes"
                _ _ _ eq_refl eq_refl eq_refl) as (? & ? & ? & ? & _).
  by split_and!.
Defined.

(** ** Degenerate inputs *)

(** The empty dataset is rejected: the first library call raises, for any
    [pos_label], and no result is returned. *)
Lemma calculate_metrics_empty_raises pos_label :
  calculate_metrics [] [] pos_label = inl EmptyInput.
Proof. reflexivity. Qed.

(** A file with both columns and no data row is an error: the run prints
    the label distribution, [calculate_metrics] raises on the empty
    columns, nothing is written and the exit status is 1. *)
Theorem header_only_csv_fails env prog csv_file rest df :
  read_csv env csv_file = inr df →
  missing_columns df = [] →
  df_get df "actual_label" = [] → df_get df "predicted_label" = [] →
  run env (prog :: csv_file :: rest) =
  (1%Z, {| stdout := [Loading csv_file; Loaded (df_len df); LabelDistribution 0 0 0 0;
                      Calculating; ErrorUnexpected];
           files := [] |}).
Proof.
  intros Hread Hmissing Htrue Hpred. run_main. rewrite Hread. simpl.
  fold (missing_columns df). rewrite bool_decide_false by (by intros ?). simpl.
  rewrite Htrue, Hpred. reflexivity.
Qed.

Lemma header_only_csv_fails_witness :
  run (one_file "data.csv" [("actual_label", []); ("predicted_label", [])])
      ["verify_metrics.py"; "data.csv"] =
  (1%Z, {| stdout := [Loading "data.csv"; Loaded 0; LabelDistribution 0 0 0 0;
                      Calculating; ErrorUnexpected];
           files := [] |}).
Proof.
  apply (header_only_csv_fails
           (one_file "data.csv" [("actual_label", []); ("predicted_label", [])])
           "verify_metrics.py" "data.csv" [] [("actual_label", []); ("predicted_label", [])]);
    reflexivity.
Defined.

Lemma negative_class_as_pos_label_witness :
  ∃ r, calculate_metrics ["No"; "No"; "Yes"] ["No"; "Yes"; "No"] "No" = inr r ∧
       tp r = 0 ∧ fn r = 0 ∧ fp r = 0 ∧ tn r = 1.
Proof.
  eexists. split; [vm_compute; reflexivity|].
  pose proof (negative_class_as_pos_label ["No"; "No"; "Yes"] ["No"; "Yes"; "No"] _ eq_refl)
    as (? & ? & ? & ?).
  by split_and!.
Defined.

(** ** The artifact path *)

Lemma append_cons c (a b : string) : String c a +:+ b = String c (a +:+ b).
Proof. reflexivity. Qed.

Lemma prefix_append old s :
  String.prefix old s = true ↔ ∃ post, s = old +:+ post.
Proof.
  revert s. induction old as [|a old IH]; intros [|b s]; simpl.
  - split; [intros _; by eexists|done].
  - split; [intros _; by eexists|done].
  - split; [done|by intros [? ?]].
  - destruct (Ascii.ascii_dec a b) as [->|Hne].
    + rewrite IH. split; intros [post Hpost]; exists post;
        rewrite ?append_cons in *; congruence.
    + split; [done|]. intros [post [= ? _]]. done.
Qed.

Lemma length_append (a b : string) :
  String.length (a +:+ b) = String.length a + String.length b.
Proof. induction a as [|c a IH]; simpl; [done|]. by rewrite IH. Qed.

Lemma replace_from_length_ge old new s skip :
  0 < String.length old → String.length old ≤ String.length new →
  String.length s ≤ String.length (replace_from skip old new s) + skip.
Proof.
  intros Hold Hnew. revert skip.
  induction s as [|c s IH]; intros skip; [simpl; lia|].
  destruct skip as [|skip]; cbn [replace_from String.length].
  - destruct (String.prefix old (String c s)).
    + rewrite length_append. specialize (IH (String.length old - 1)). lia.
    + cbn [String.length]. specialize (IH 0). lia.
  - specialize (IH skip). lia.
Qed.

Lemma replace_from_length_gt old new s :
  0 < String.length old → String.length old < String.length new →
  occurs old s →
  String.length s < String.length (replace_from 0 old new s).
Proof.
  intros Hold Hnew. induction s as [|c s IH]; intros (pre & post & Hs).
  - destruct pre; [|done]. destruct old; [simpl in Hold; lia|done].
  - cbn [replace_from String.length].
    destruct (String.prefix old (String c s)) eqn:Hprefix.
    + rewrite length_append.
      pose proof (replace_from_length_ge old new s (String.length old - 1)
                    Hold ltac:(lia)).
      lia.
    + destruct pre as [|c' pre].
      * assert (String.prefix old (String c s) = true); [|congruence].
        apply prefix_append. by exists post.
      * rewrite append_cons in Hs. injection Hs as -> ->. cbn [String.length].
        assert (String.length (pre +:+ old +:+ post) <
                String.length (replace_from 0 old new (pre +:+ old +:+ post)));
          [|lia].
        apply IH. by exists pre, post.
Qed.

Lemma replace_from_unchanged old new s :
  ¬ occurs old s → replace_from 0 old new s = s.
Proof.
  induction s as [|c s IH]; intros Hno; [done|].
  cbn [replace_from].
  destruct (String.prefix old (String c s)) eqn:Hprefix.
  - destruct Hno. apply prefix_append in Hprefix as [post ->].
    by exists EmptyString, post.
  - f_equal. apply IH. intros (pre & post & ->).
    apply Hno. by exists (String c pre), post.
Qed.

(** The artifact's path is the input path itself exactly when ".csv" does
    not occur in the input path. *)
Theorem output_file_is_input_iff csv_file :
  str_replace csv_file ".csv" "_python_metrics.json" = csv_file ↔
  ¬ occurs ".csv" csv_file.
Proof.
  split.
  - intros Heq Hocc.
    pose proof (replace_from_length_gt ".csv" "_python_metrics.json" csv_file
                  ltac:(simpl; lia) ltac:(simpl; lia) Hocc) as Hlt.
    unfold str_replace in Heq. rewrite Heq in Hlt. lia.
  - apply replace_from_unchanged.
Qed.

Lemma prefix_csv_overlap c base :
  String.prefix ".csv" (String c (base +:+ ".csv")) = true →
  occurs ".csv" (String c base).
Proof.
  intros H. apply prefix_append in H as [post H].
  injection H as -> H.
  destruct base as [|x [|y [|z base]]]; simpl in H; try discriminate H.
  injection H as -> -> -> _. by exists EmptyString, base.
Qed.

(** For an input path [base.csv] in whose [base] ".csv" does not occur, the
    artifact's path is [base_python_metrics.json]. *)
Theorem output_file_of_csv_path base :
  ¬ occurs ".csv" base →
  str_replace (base +:+ ".csv") ".csv" "_python_metrics.json" =
  base +:+ "_python_metrics.json".
Proof.
  unfold str_replace. induction base as [|c base IH]; intros Hno; [done|].
  change (String c base +:+ ".csv") with (String c (base +:+ ".csv")).
  cbn [replace_from].
  destruct (String.prefix ".csv" (String c (base +:+ ".csv"))) eqn:Hprefix.
  - destruct Hno. by apply prefix_csv_overlap.
  - rewrite append_cons. f_equal. apply IH. intros (pre & post & ->).
    apply Hno. by exists (String c pre), post.
Qed.

Lemma not_occurs_csv_data : ¬ occurs ".csv" "results/run.1/data".
Proof.
  intros Hocc.
  pose proof (replace_from_length_gt ".csv" "_python_metrics.json" "results/run.1/data"
                ltac:(simpl; lia) ltac:(simpl; lia) Hocc) as Hlt.
  vm_compute in Hlt. lia.
Qed.

Lemma output_file_of_csv_path_witness :
  str_replace "results/run.1/data.csv" ".csv" "_python_metrics.json" =
  "results/run.1/data_python_metrics.json".
Proof.
  apply (output_file_of_csv_path "results/run.1/data").
  apply not_occurs_csv_data.
Defined.

(** ** Checking the columns *)

(** [verify_csv_format] never raises; it returns [True] exactly when both
    required columns are present, and then prints nothing; otherwise it
    prints one message with the required columns that are absent, in the
    order actual_label, predicted_label, and all the columns present. *)
Theorem verify_csv_format_spec df w :
  ∃ ok w', verify_csv_format df w = (inr ok, w') ∧
    (ok = true ↔ "actual_label" ∈ df_columns df ∧ "predicted_label" ∈ df_columns df) ∧
    files w' = files w ∧
    stdout w' =
      (if ok then stdout w
       else stdout w ++ [MissingColumns (missing_columns df) (df_columns df)])%list ∧
    (∀ col, col ∈ missing_columns df ↔
            (col = "actual_label" ∨ col = "predicted_label") ∧ col ∉ df_columns df).
Proof.
  assert (∀ col, col ∈ missing_columns df ↔
            (col = "actual_label" ∨ col = "predicted_label") ∧ col ∉ df_columns df)
    as Hmissing.
  { intros col. unfold missing_columns. rewrite list_elem_of_filter, !elem_of_cons.
    rewrite elem_of_nil. tauto. }
  unfold verify_csv_format. fold (missing_columns df).
  destruct (decide (missing_columns df = [])) as [Hnil|Hne].
  - rewrite bool_decide_false by (by intros ?).
    exists true, w. split_and!; try done.
    split; [intros _|done].
    split; apply dec_stable; intros Hout.
    + assert ("actual_label" ∈ missing_columns df) as Hin by (apply Hmissing; tauto).
      rewrite Hnil in Hin. by apply elem_of_nil in Hin.
    + assert ("predicted_label" ∈ missing_columns df) as Hin by (apply Hmissing; tauto).
      rewrite Hnil in Hin. by apply elem_of_nil in Hin.
  - rewrite bool_decide_true by done.
    eexists false, _. split; [reflexivity|]. split_and!; try done.
    split; [done|]. intros [Ha Hp].
    destruct (missing_columns df) as [|col l]; [done|].
    destruct (proj1 (Hmissing col) ltac:(left)) as [[-> | ->] ?]; done.
Qed.

(** ** What a run leaves behind *)


(** When the input loads and the metrics are computed but the artifact's
    path cannot be opened because a directory of it does not exist, the run
    ends with status 1 and its last message reports the input file as not
    found, after the results were printed. *)
Theorem unwritable_artifact_blames_input env prog csv_file rest df metrics :
  read_csv env csv_file = inr df →
  missing_columns df = [] →
  calculate_metrics (df_get df "actual_label") (df_get df "predicted_label") "Yes"
    = inr metrics →
  classification_report env (df_get df "actual_label") (df_get df "predicted_label")
    = None →
  open_w env (str_replace csv_file ".csv" "_python_metrics.json") = Some file_not_found →
  exit_status env (prog :: csv_file :: rest) = 1%Z ∧
  files (run env (prog :: csv_file :: rest)).2 = [] ∧
  Results metrics ∈ stdout (run env (prog :: csv_file :: rest)).2 ∧
  last (stdout (run env (prog :: csv_file :: rest)).2) = Some (ErrorFileNotFound csv_file).
Proof.
  intros Hread Hmissing Hm Hrep Hopen. run_main. rewrite Hread. simpl.
  fold (missing_columns df). rewrite bool_decide_false by (by intros ?). simpl.
  repeat match goal with
         | |- context [ if bool_decide ?P then _ else _ ] => destruct (bool_decide P); simpl
         end.
  all: rewrite Hm; simpl; rewrite Hrep; simpl; rewrite Hopen; simpl.
  all: split_and!; [done|done| |done].
  all: repeat first [ by left | right ].
Qed.

Lemma unwritable_artifact_blames_input_witness :
  exit_status (missing_directory "a.csv.d/data.csv"
                 [("actual_label", ["Yes"]); ("predicted_label", ["Yes"])])
    ["verify_metrics.py"; "a.csv.d/data.csv"] = 1%Z ∧
  last (stdout (run (missing_directory "a.csv.d/data.csv"
                       [("actual_label", ["Yes"]); ("predicted_label", ["Yes"])])
                  ["verify_metrics.py"; "a.csv.d/data.csv"]).2)
  = Some (ErrorFileNotFound "a.csv.d/data.csv").
Proof.
  edestruct (unwritable_artifact_blames_input
               (missing_directory "a.csv.d/data.csv"
                  [("actual_label", ["Yes"]); ("predicted_label", ["Yes"])])
               "verify_metrics.py" "a.csv.d/data.csv" [])
    as (Hstatus & _ & _ & Hlast); [reflexivity..|].
  by split.
Defined.

(** ** Warnings *)

Lemma invalid_labels_nil (y : list string) :
  filter (λ label, label ∉ ["Yes"; "No"]) y = [] ↔ Forall valid_label y.
Proof.
  induction y as [|x y IH]; [done|].
  rewrite filter_cons, Forall_cons, <- IH. unfold valid_label.
  case_decide as Hx; rewrite !elem_of_cons, elem_of_nil in Hx.
  - split; [done|]. intros [[-> | ->] _]; tauto.
  - split; [|tauto]. intros ->. split; [|done].
    destruct (decide (x = "Yes")); [tauto|]. destruct (decide (x = "No")); tauto.
Qed.

(** Once the file is loaded and both columns are present, the run prints
    the warning about actual labels exactly when some actual label is
    outside {"Yes", "No"}, naming the set of those labels, and likewise for
    the predicted labels, whatever happens afterwards. *)
Theorem invalid_label_warnings env prog csv_file rest df :
  read_csv env csv_file = inr df →
  missing_columns df = [] →
  (∀ labels, WarnInvalidActual labels ∈ stdout (run env (prog :: csv_file :: rest)).2 ↔
     ¬ Forall valid_label (df_get df "actual_label") ∧
     labels = list_to_set (filter (λ label, label ∉ ["Yes"; "No"])
                             (df_get df "actual_label"))) ∧
  (∀ labels, WarnInvalidPredicted labels ∈ stdout (run env (prog :: csv_file :: rest)).2 ↔
     ¬ Forall valid_label (df_get df "predicted_label") ∧
     labels = list_to_set (filter (λ label, label ∉ ["Yes"; "No"])
                             (df_get df "predicted_label"))).
Proof.
  intros Hread Hmissing.
  setoid_rewrite <- invalid_labels_nil.
  run_main. rewrite Hread. simpl.
  fold (missing_columns df). rewrite bool_decide_false by (by intros ?). simpl.
  do 2 case_bool_decide; simpl.
  all: destruct (calculate_metrics _ _ _) as [e|m]; simpl.
  all: try (destruct (classification_report env _ _) as [[]|]; simpl).
  all: try (destruct (open_w env _) as [[]|]; simpl).
  all: split; intros labels; warning_in_output.
Qed.

Lemma invalid_label_warnings_witness :
  WarnInvalidActual {["Maybe"]} ∈
    stdout (run (one_file "data.csv" [("actual_label", ["Yes"; "Maybe"]);
                                      ("predicted_label", ["Yes"; "Yes"])])
              ["verify_metrics.py"; "data.csv"]).2.
Proof.
  apply (invalid_label_warnings
           (one_file "data.csv" [("actual_label", ["Yes"; "Maybe"]);
                                 ("predicted_label", ["Yes"; "Yes"])])
           "verify_metrics.py" "data.csv" [] _ eq_refl eq_refl).
  split; [|vm_compute; reflexivity].
  intros H. apply Forall_cons in H as [_ H]. apply Forall_cons in H as [[H|H] _];
    discriminate H.
Defined.

(** ** An invalid label beside both classes *)

(** When "Yes" and "No" both occur in the data and some label is neither,
    three label values are present and [calculate_metrics] raises. *)
Theorem invalid_label_beside_both_classes_raises y_true y_pred :
  "Yes" ∈ (y_true ++ y_pred)%list → "No" ∈ (y_true ++ y_pred)%list →
  ¬ Forall valid_label (y_true ++ y_pred)%list →
  ∃ e, calculate_metrics y_true y_pred "Yes" = inl e.
Proof.
  intros Hyes Hno Hinvalid.
  apply calculate_metrics_three_labels.
  apply not_Forall_Exists in Hinvalid; [|apply _].
  apply Exists_exists in Hinvalid as (x & Hx & Hbad).
  assert ({["Yes"; "No"; x]} ⊆ sklearn.unique_labels y_true y_pred) as Hsub.
  { unfold sklearn.unique_labels. set_solver. }
  apply subseteq_size in Hsub.
  unfold valid_label in Hbad.
  rewrite !size_union, !size_singleton in Hsub by set_solver.
  lia.
Qed.

Lemma invalid_label_beside_both_classes_raises_witness :
  ∃ e, calculate_metrics ["Yes"; "No"; "Yes"] ["Yes"; "No"; "yes"] "Yes" = inl e.
Proof.
  apply (invalid_label_beside_both_classes_raises ["Yes"; "No"; "Yes"] ["Yes"; "No"; "yes"]).
  - left.
  - right. left.
  - intros H. apply (bool_decide_pack _) in H. vm_compute in H. exact H.
Defined.

(** ** F1 between precision and recall *)

Lemma prf_divide_le n1 d1 n2 d2 :
  0 < d1 → 0 < d2 → n1 * d2 ≤ n2 * d1 →
  (prf_divide n1 d1 <= prf_divide n2 d2)%Q.
Proof.
  intros Hd1 Hd2 Hle. unfold prf_divide.
  rewrite !decide_False by lia. rewrite !Qred_correct.
  unfold Qle. simpl. nia.
Qed.

(** A returned F1 lies between the returned precision and recall. *)
Theorem f1_between_precision_and_recall y_true y_pred pos_label r :
  calculate_metrics y_true y_pred pos_label = inr r →
  (precision r <= f1_score r <= recall r)%Q ∨
  (recall r <= f1_score r <= precision r)%Q.
Proof.
  intros Hr.
  apply calculate_metrics_inr in Hr
    as (_ & _ & _ & _ & _ & _ & _ & _ & _ & -> & -> & ->).
  assert (sklearn.tp_sum y_true y_pred pos_label ≤ sklearn.pred_sum y_true y_pred pos_label)
    as Hps by (apply filter_length_mono; intros ?; simpl; tauto).
  assert (sklearn.tp_sum y_true y_pred pos_label ≤ sklearn.true_sum y_true y_pred pos_label)
    as Hts by (apply filter_length_mono; intros ?; simpl; tauto).
  generalize dependent (sklearn.tp_sum y_true y_pred pos_label).
  generalize dependent (sklearn.pred_sum y_true y_pred pos_label).
  generalize dependent (sklearn.true_sum y_true y_pred pos_label).
  intros ts ps t Hps Hts.
  destruct (decide (ps = 0)) as [->|Hps0].
  { assert (t = 0) as -> by lia. left.
    rewrite Nat.mul_0_r, !prf_divide_none. split; apply Qle_refl. }
  destruct (decide (ts = 0)) as [->|Hts0].
  { assert (t = 0) as -> by lia. right.
    rewrite Nat.mul_0_r, !prf_divide_none. split; apply Qle_refl. }
  destruct (decide (ps ≤ ts)).
  - right. split; apply prf_divide_le; nia.
  - left. split; apply prf_divide_le; nia.
Qed.

Lemma f1_between_precision_and_recall_witness :
  ∃ r, calculate_metrics ["Yes"; "Yes"; "No"; "Yes"] ["Yes"; "No"; "No"; "No"] "Yes" = inr r ∧
       ((precision r <= f1_score r <= recall r)%Q ∨
        (recall r <= f1_score r <= precision r)%Q).
Proof.
  eexists. split; [vm_compute; reflexivity|].
  apply (f1_between_precision_and_recall
           ["Yes"; "Yes"; "No"; "Yes"] ["Yes"; "No"; "No"; "No"] "Yes").
  vm_compute. reflexivity.
Defined.
